(** * NBA score tracker: the classification, aggregation and lookup logic of
    [sports_scores.py] ([SportsScoreTracker]), embedded and verified.

    Python values are embedded as the inductive [value]; Python's [float] is
    the IEEE 754 binary64 type of the kernel ([PrimFloat.float]); raised
    exceptions are the [Raise] branch of [result]. *)

From Stdlib Require Import ZArith Floats String Ascii List Bool Lia.
From stdpp Require Import gmap strings.
Import ListNotations.

Set Warnings "-register-all".
Local Open Scope Z_scope.
Local Open Scope string_scope.

(** ** Python values and exceptions *)

(** What [json.loads] produces, which is also everything the tracker passes
    around: [None], booleans, integers, floats, strings, lists and dicts
    (a dict as the list of its items, in insertion order). *)
Inductive value : Type :=
| VNone
| VBool (b : bool)
| VInt (n : Z)
| VFloat (f : float)
| VStr (s : string)
| VList (l : list value)
| VDict (items : list (string * value)).

Inductive exn : Type :=
| KeyError
| IndexError
| TypeError
| ValueError
| AttributeError
| OverflowError
| ZeroDivisionError
| RequestError.

Inductive result (A : Type) : Type :=
| Ok (a : A)
| Raise (e : exn).
Arguments Ok {A} a.
Arguments Raise {A} e.

#[global] Instance result_ret : MRet result := fun A a => Ok a.
#[global] Instance result_bind : MBind result := fun A B k r =>
  match r with
  | Ok a => k a
  | Raise e => Raise e
  end.

(** ** Floats *)

Definition f0 : float := PrimFloat.zero.
Definition f5 : float := 5%float.
Definition f100 : float := 100%float.
Definition fneg5 : float := Eval cbv in PrimFloat.opp 5%float.

(** [float(n)] for an [int]: round to nearest, ties to even; an integer
    that rounds beyond the largest finite float raises [OverflowError]. *)
Definition float_of_int (n : Z) : result float :=
  let f := SF2Prim (binary_normalize prec emax n 0 false) in
  if PrimFloat.is_infinity f then Raise OverflowError else Ok f.

(** ** Strings

    Strings are sequences of ASCII characters: identifiers, nicknames and
    the cells of the statistics table. *)

(** [c.lower()] on one character. *)
Definition lower_ascii (c : ascii) : ascii :=
  let n := nat_of_ascii c in
  if ((65 <=? n)%nat && (n <=? 90)%nat)%bool then ascii_of_nat (n + 32) else c.

(** [s.lower()]. *)
Fixpoint lower (s : string) : string :=
  match s with
  | EmptyString => EmptyString
  | String c s' => String (lower_ascii c) (lower s')
  end.

(** [p in s] for two strings: [p] occurs in [s] as a contiguous run. *)
Fixpoint contains_str (p s : string) : bool :=
  String.prefix p s ||
  match s with
  | EmptyString => false
  | String _ s' => contains_str p s'
  end.

(** [c.isspace()] on one ASCII character. *)
Definition is_space (c : ascii) : bool :=
  let n := nat_of_ascii c in
  ((9 <=? n)%nat && (n <=? 13)%nat) || ((28 <=? n)%nat && (n <=? 32)%nat).

Fixpoint lstrip (s : string) : string :=
  match s with
  | EmptyString => EmptyString
  | String c s' => if is_space c then lstrip s' else s
  end.

Definition rev_string (s : string) : string :=
  string_of_list_ascii (rev (list_ascii_of_string s)).

(** [s.strip()]. *)
Definition strip (s : string) : string :=
  rev_string (lstrip (rev_string (lstrip s))).

(** ** Python operations on values *)

(** Truth value of [v], as [not v] and [if v] test it. *)
Definition truthy (v : value) : bool :=
  match v with
  | VNone => false
  | VBool b => b
  | VInt n => negb (n =? 0)%Z
  | VFloat f => negb (PrimFloat.eqb f f0)
  | VStr s => negb (String.eqb s "")
  | VList l => match l with [] => false | _ => true end
  | VDict d => match d with [] => false | _ => true end
  end.

(** [d[k]] on the items of a dict, [None] where the key is missing. *)
Fixpoint lookup_item {A : Type} (k : string) (items : list (string * A)) : option A :=
  match items with
  | [] => None
  | (k', v) :: rest => if String.eqb k k' then Some v else lookup_item k rest
  end.

(** [v == k] for a string [k]. *)
Definition eq_str (k : string) (v : value) : bool :=
  match v with
  | VStr s => String.eqb k s
  | _ => false
  end.

(** [k in v] for a string [k]: key of a dict, element of a list, run of a
    string; the other values are not containers. *)
Definition py_contains (k : string) (v : value) : result bool :=
  match v with
  | VDict d => Ok (bool_decide (is_Some (lookup_item k d)))
  | VList l => Ok (existsb (eq_str k) l)
  | VStr s => Ok (contains_str k s)
  | VNone | VBool _ | VInt _ | VFloat _ => Raise TypeError
  end.

(** [len(v)]. *)
Definition py_len (v : value) : result nat :=
  match v with
  | VDict d => Ok (length d)
  | VList l => Ok (length l)
  | VStr s => Ok (String.length s)
  | VNone | VBool _ | VInt _ | VFloat _ => Raise TypeError
  end.

(** [v[k]] for a string [k]. *)
Definition py_getitem (v : value) (k : string) : result value :=
  match v with
  | VDict d =>
      match lookup_item k d with
      | Some x => Ok x
      | None => Raise KeyError
      end
  | _ => Raise TypeError
  end.

(** [v[i]] for a non-negative integer [i]; the keys of a parsed JSON object
    are strings, so a dict has no integer key. *)
Definition py_index (v : value) (i : nat) : result value :=
  match v with
  | VList l =>
      match nth_error l i with
      | Some x => Ok x
      | None => Raise IndexError
      end
  | VStr s =>
      match String.get i s with
      | Some c => Ok (VStr (String c EmptyString))
      | None => Raise IndexError
      end
  | VDict _ => Raise KeyError
  | VNone | VBool _ | VInt _ | VFloat _ => Raise TypeError
  end.

(** The characters of a string, each a string of its own. *)
Fixpoint chars (s : string) : list value :=
  match s with
  | EmptyString => []
  | String c s' => VStr (String c EmptyString) :: chars s'
  end.

(** The elements [for x in v] visits: those of a list, the keys of a dict,
    the characters of a string. *)
Definition py_iter (v : value) : result (list value) :=
  match v with
  | VList l => Ok l
  | VDict d => Ok (map (fun kv => VStr (fst kv)) d)
  | VStr s => Ok (chars s)
  | VNone | VBool _ | VInt _ | VFloat _ => Raise TypeError
  end.

(** The elements of [v[:2]]; a dict cannot be sliced. *)
Definition py_slice2 (v : value) : result (list value) :=
  match v with
  | VList l => Ok (firstn 2 l)
  | VStr s => Ok (firstn 2 (chars s))
  | VDict _ | VNone | VBool _ | VInt _ | VFloat _ => Raise TypeError
  end.

(** [v.get(k, default)]: only a dict has the method. *)
Definition py_get (v : value) (k : string) (default : value) : result value :=
  match v with
  | VDict d =>
      match lookup_item k d with
      | Some x => Ok x
      | None => Ok default
      end
  | _ => Raise AttributeError
  end.

(** [v.lower()]: only a string has the method. *)
Definition py_lower (v : value) : result string :=
  match v with
  | VStr s => Ok (lower s)
  | _ => Raise AttributeError
  end.

(** [try: ... except Exception: pass], then [return None]. *)
Definition catch_none {A : Type} (r : result (option A)) : option A :=
  match r with
  | Ok o => o
  | Raise _ => None
  end.

(** ** Performance rating *)

Inductive PerformanceRating : Type := Hot | Cold | Neutral | NoData.

(** The marker [analyze_performance] returns for each rating. *)
Definition marker (r : PerformanceRating) : string :=
  match r with
  | Hot => "🔥"
  | Cold => "❄️"
  | Neutral => "➖"
  | NoData => "⚪"
  end.

Definition rating_eqb (a b : PerformanceRating) : bool :=
  String.eqb (marker a) (marker b).

(** Float division raises on a zero divisor. *)
Definition py_fdiv (a b : float) : result float :=
  if PrimFloat.eqb b f0 then Raise ZeroDivisionError else Ok (PrimFloat.div a b).

(** ** The mapping tables *)

(** [self.nba_team_mappings], in insertion order. *)
Definition nba_team_mappings : list (string * string) :=
  [ ("Hawks", "Atlanta"); ("Celtics", "Boston"); ("Nets", "Brooklyn");
    ("Hornets", "Charlotte"); ("Bulls", "Chicago"); ("Cavaliers", "Cleveland");
    ("Mavericks", "Dallas"); ("Nuggets", "Denver"); ("Pistons", "Detroit");
    ("Warriors", "Golden State"); ("Rockets", "Houston"); ("Pacers", "Indiana");
    ("Clippers", "LA Clippers"); ("Lakers", "LA Lakers");
    ("Grizzlies", "Memphis"); ("Heat", "Miami"); ("Bucks", "Milwaukee");
    ("Timberwolves", "Minnesota"); ("Pelicans", "New Orleans");
    ("Knicks", "New York"); ("Thunder", "Okla City"); ("Magic", "Orlando");
    ("76ers", "Philadelphia"); ("Suns", "Phoenix");
    ("Trail Blazers", "Portland"); ("Kings", "Sacramento");
    ("Spurs", "San Antonio"); ("Raptors", "Toronto"); ("Jazz", "Utah");
    ("Wizards", "Washington") ].

(** [team_id_mappings] of [get_team_stats]. *)
Definition team_id_mappings : list (string * string) :=
  [ ("1", "Hawks"); ("2", "Celtics"); ("3", "Nets"); ("4", "Hornets");
    ("5", "Bulls"); ("6", "Cavaliers"); ("7", "Mavericks"); ("8", "Nuggets");
    ("9", "Pistons"); ("10", "Warriors"); ("11", "Rockets"); ("12", "Pacers");
    ("13", "Clippers"); ("14", "Lakers"); ("15", "Grizzlies"); ("16", "Heat");
    ("17", "Bucks"); ("18", "Timberwolves"); ("19", "Pelicans");
    ("20", "Knicks"); ("21", "Thunder"); ("22", "Magic"); ("23", "76ers");
    ("24", "Suns"); ("25", "Trail Blazers"); ("26", "Kings"); ("27", "Spurs");
    ("28", "Raptors"); ("29", "Jazz"); ("30", "Wizards") ].

(** [team_id in team_id_mappings]: a list or a dict cannot be hashed; any
    other value that is not one of the string keys is simply not there. *)
Definition known_code (team_id : value) : result (option string) :=
  match team_id with
  | VStr s => Ok (lookup_item s team_id_mappings)
  | VList _ | VDict _ => Raise TypeError
  | VNone | VBool _ | VInt _ | VFloat _ => Ok None
  end.

(** The fallback loop of [get_team_stats]:
    [for key in self.nba_team_mappings.keys(): if key.lower() in team_id.lower(): ... break]. *)
Fixpoint search_by_name (table : list (string * string)) (team_id : value)
  : result (option string) :=
  match table with
  | [] => Ok None
  | (key, market) :: rest =>
      ident ← py_lower team_id;
      if contains_str (lower key) ident then Ok (Some market)
      else search_by_name rest team_id
  end.

(** Lines 184-191 of [get_team_stats]: the name the statistics site uses
    for [team_id], [None] while [team_name] stays [None]. *)
Definition resolve_team_name (team_id : value) : result (option string) :=
  code ← known_code team_id;
  match code with
  | Some nickname =>
      match lookup_item nickname nba_team_mappings with
      | Some market => Ok (Some market)
      | None => Raise KeyError
      end
  | None => search_by_name nba_team_mappings team_id
  end.

(** ** The tracker and its surroundings *)

(** The cached state of a [SportsScoreTracker]; times are microseconds, the
    resolution of [datetime]. *)
Record tracker : Type := {
  nba_halftime_averages : gmap string float;
  nba_second_half_averages : gmap string float;
  last_averages_update : option Z
}.

(** What a GET of a statistics page comes to: the request or the parser
    raises, the page has no [tr-table] table, or it has one, given as the
    texts of the [td] cells of each of its [tr] rows (header row included). *)
Inductive page : Type :=
| Failed
| NoTable
| Table (rows : list (list string)).

(** The surroundings: the [n]-th reading of [datetime.now()] and the answer
    to the [n]-th request of the session. *)
Class environment : Type := {
  clock : nat -> Z;
  http_get : nat -> string -> page
}.

(** [float(s)] for a [str] is Python's own parser: [Some f] for the float it
    reads, [None] where it raises [ValueError]. *)
Class builtins : Type := {
  float_of_string : string -> option float
}.

(** The tracker together with how many clock readings and requests it has
    made so far. *)
Record world : Type := {
  state : tracker;
  ticks : nat;
  requests : nat
}.

Definition first_half_url : string :=
  "https://www.teamrankings.com/nba/stat/1st-half-points-per-game".
Definition second_half_url : string :=
  "https://www.teamrankings.com/nba/stat/2nd-half-points-per-game".

(** One hour, in microseconds. *)
Definition one_hour : Z := 3600 * 1000000.

(** ** Console output of the monitoring loop *)

Record live_line : Type := {
  ll_away_name : value;
  ll_away_halftime : float;
  ll_away_perf : PerformanceRating;
  ll_home_name : value;
  ll_home_halftime : float;
  ll_home_perf : PerformanceRating;
  ll_status : value
}.

Record final_line : Type := {
  fl_away_name : value;
  fl_away_halftime : float;
  fl_away_second_half : float;
  fl_away_first_perf : PerformanceRating;
  fl_away_second_perf : PerformanceRating;
  fl_home_name : value;
  fl_home_halftime : float;
  fl_home_second_half : float;
  fl_home_first_perf : PerformanceRating;
  fl_home_second_perf : PerformanceRating
}.

(** What one pass of [monitor_scores] prints: the section headers, one line
    per game (with or without the [BOLD] ... [END] escapes around it), the
    error line of the [except] clause and the two closing lines. The progress
    messages of the other methods are left out. *)
Inductive output : Type :=
| LiveHeader
| CompletedHeader
| Rule
| Blank
| NoGames
| ErrorLine (e : exn)
| ExitHint
| LastUpdated (now : Z)
| LiveLine (bold : bool) (l : live_line)
| FinalLine (bold : bool) (l : final_line).

(** A [game_info] dict of [monitor_scores]. *)
Record game_info : Type := {
  event : value;
  home_team : value;
  away_team : value;
  home_halftime : float;
  away_halftime : float
}.

(** Computations of the monitoring loop: they may raise, they change the
    tracker and they print. *)
Definition io (A : Type) : Type :=
  world * list output -> result A * (world * list output).

#[global] Instance io_ret : MRet io := fun A a s => (Ok a, s).
#[global] Instance io_bind : MBind io := fun A B k m s =>
  match m s with
  | (Ok a, s') => k a s'
  | (Raise e, s') => (Raise e, s')
  end.

Definition lift {A : Type} (r : result A) : io A := fun s => (r, s).

Definition print (o : output) : io unit :=
  fun s => (Ok tt, (fst s, (snd s ++ [o])%list)).

(** [for x in l: body(x)]. *)
Fixpoint for_each {A : Type} (body : A -> io unit) (l : list A) : io unit :=
  match l with
  | [] => mret tt
  | x :: rest => _ ← body x; for_each body rest
  end.

(** A float or [None] as a value. *)
Definition of_option (o : option float) : value :=
  match o with
  | Some f => VFloat f
  | None => VNone
  end.

(** [v[k1][k2]]. *)
Definition py_getitem2 (v : value) (k1 k2 : string) : result value :=
  x ← py_getitem v k1; py_getitem x k2.

(** [v[k1][k2][k3]]. *)
Definition py_getitem3 (v : value) (k1 k2 k3 : string) : result value :=
  x ← py_getitem2 v k1 k2; py_getitem x k3.

(** The highlight test of a live game (lines 299-300). *)
Definition both_hot_or_cold (home_perf away_perf : PerformanceRating) : bool :=
  (rating_eqb home_perf Hot && rating_eqb away_perf Hot) ||
  (rating_eqb home_perf Cold && rating_eqb away_perf Cold).

Section Tracker.

Context {python : builtins} {env : environment}.

(** The builtin [float(v)]. *)
Definition py_float (v : value) : result float :=
  match v with
  | VFloat f => Ok f
  | VInt n => float_of_int n
  | VBool b => Ok (if b then PrimFloat.one else f0)
  | VStr s =>
      match float_of_string s with
      | Some f => Ok f
      | None => Raise ValueError
      end
  | VNone | VList _ | VDict _ => Raise TypeError
  end.

Definition analyze_performance (current_score avg_score_per_game : value)
  : result PerformanceRating :=
  if negb (truthy avg_score_per_game) then Ok NoData
  else
    current_score ← py_float current_score;
    expected_score ← py_float avg_score_per_game;
    q ← py_fdiv (PrimFloat.sub current_score expected_score) expected_score;
    let diff_percentage := PrimFloat.mul q f100 in
    if PrimFloat.leb f5 diff_percentage then Ok Hot
    else if PrimFloat.leb diff_percentage fneg5 then Ok Cold
    else Ok Neutral.

(** [float(score.get('value', 0))] for one entry of [linescores]. *)
Definition period_value (score : value) : result float :=
  v ← py_get score "value" (VInt 0);
  py_float v.

(** [sum(...)] over the generator: the integer 0 plus each float in turn. *)
Fixpoint sum_periods (acc : float) (scores : list value) : result float :=
  match scores with
  | [] => Ok acc
  | score :: rest =>
      f ← period_value score;
      sum_periods (PrimFloat.add acc f) rest
  end.

(** The [try] block of [get_halftime_score]. *)
Definition halftime_body (competitor : value) : result (option float) :=
  has ← py_contains "linescores" competitor;
  if negb has then Ok None
  else
    linescores ← py_getitem competitor "linescores";
    n ← py_len linescores;
    if negb (2 <=? n)%nat then Ok None
    else
      linescores ← py_getitem competitor "linescores";
      periods ← py_slice2 linescores;
      total ← sum_periods f0 periods;
      Ok (Some total).

Definition get_halftime_score (competitor : value) : option float :=
  catch_none (halftime_body competitor).

(** The row loop of [update_nba_halftime_averages], over the rows after the
    header: a row of fewer than three cells is passed over, and so is one
    whose third cell is not a float. *)
Definition add_row (averages : gmap string float) (cols : list string)
  : gmap string float :=
  if (3 <=? length cols)%nat then
    let team_name := strip (nth 1 cols "") in
    match float_of_string (strip (nth 2 cols "")) with
    | Some avg_score => <[team_name := avg_score]> averages
    | None => averages
    end
  else averages.

Definition add_rows (averages : gmap string float) (rows : list (list string))
  : gmap string float :=
  fold_left add_row (tail rows) averages.

(** The first [try] block of [update_nba_halftime_averages]. *)
Definition update_first_half (w : world) : world :=
  let t := state w in
  match http_get (requests w) first_half_url with
  | Table rows =>
      {| state := {| nba_halftime_averages := add_rows (nba_halftime_averages t) rows;
                     nba_second_half_averages := nba_second_half_averages t;
                     last_averages_update := Some (clock (ticks w)) |};
         ticks := S (ticks w);
         requests := S (requests w) |}
  | NoTable | Failed =>
      {| state := t; ticks := ticks w; requests := S (requests w) |}
  end.

(** The second [try] block of [update_nba_halftime_averages]. *)
Definition update_second_half (w : world) : world :=
  let t := state w in
  match http_get (requests w) second_half_url with
  | Table rows =>
      {| state := {| nba_halftime_averages := nba_halftime_averages t;
                     nba_second_half_averages := add_rows (nba_second_half_averages t) rows;
                     last_averages_update := last_averages_update t |};
         ticks := ticks w;
         requests := S (requests w) |}
  | NoTable | Failed =>
      {| state := t; ticks := ticks w; requests := S (requests w) |}
  end.

Definition update_nba_halftime_averages (w : world) : world :=
  update_second_half (update_first_half w).

(** The test of lines 142-143: no timestamp yet, or one more than 3600
    seconds before the clock's reading; the clock is read only when there is
    a timestamp. A difference of whole microseconds has [total_seconds()]
    above 3600 exactly when it is above 3600 * 10^6. *)
Definition averages_stale (w : world) : bool * world :=
  match last_averages_update (state w) with
  | None => (true, w)
  | Some last =>
      (Z.ltb one_hour (clock (ticks w) - last)%Z,
       {| state := state w; ticks := S (ticks w); requests := requests w |})
  end.

(** Lines 142-144 of [get_team_stats]. *)
Definition refresh_if_stale (w : world) : world :=
  let (is_stale, w1) := averages_stale w in
  if is_stale then update_nba_halftime_averages w1 else w1.

(** Lines 146-206 of [get_team_stats], on the refreshed tracker. *)
Definition lookup_average (t : tracker) (team_id : value) (second_half : bool)
  : result (option float) :=
  team_name ← resolve_team_name team_id;
  match team_name with
  | None => Ok None
  | Some team_name =>
      if negb (truthy (VStr team_name)) then Ok None
      else if second_half then Ok (nba_second_half_averages t !! team_name)
      else Ok (nba_halftime_averages t !! team_name)
  end.

Definition get_team_stats (team_id : value) (second_half : bool) (w : world)
  : option float * world :=
  let w1 := refresh_if_stale w in
  (catch_none (lookup_average (state w1) team_id second_half), w1).

(** *** One pass of [monitor_scores] *)

(** The condition of lines 252-254. *)
Definition has_two_competitors (event : value) : result bool :=
  c ← py_contains "competitions" event;
  if negb c then Ok false
  else
    competitions ← py_getitem event "competitions";
    n ← py_len competitions;
    if negb (0 <? n)%nat then Ok false
    else
      first ← py_index competitions 0;
      c ← py_contains "competitors" first;
      if negb c then Ok false
      else
        competitors ← py_getitem first "competitors";
        n ← py_len competitors;
        Ok (2 <=? n)%nat.

(** [home_team] and [away_team] of lines 256-257. *)
Definition competitors_of (event : value) : result (value * value) :=
  competitions ← py_getitem event "competitions";
  first ← py_index competitions 0;
  competitors ← py_getitem first "competitors";
  home_team ← py_index competitors 0;
  away_team ← py_index competitors 1;
  Ok (home_team, away_team).

(** The body of the loop of lines 251-275 for one event: [None] when the
    event adds no game, else the game and whether it is completed. *)
Definition gather_event (event : value) : result (option (bool * game_info)) :=
  ok ← has_two_competitors event;
  if negb ok then Ok None
  else
    teams ← competitors_of event;
    let home_team := fst teams in
    let away_team := snd teams in
    match get_halftime_score home_team, get_halftime_score away_team with
    | Some home_halftime, Some away_halftime =>
        state ← py_getitem3 event "status" "type" "state";
        Ok (Some (eq_str "post" state,
                  {| event := event; home_team := home_team; away_team := away_team;
                     home_halftime := home_halftime; away_halftime := away_halftime |}))
    | _, _ => Ok None
    end.

(** The loop of lines 251-275: [(live_games, completed_games)]. *)
Fixpoint gather_games (events : list value)
  : result (list game_info * list game_info) :=
  match events with
  | [] => Ok ([], [])
  | event :: rest =>
      g ← gather_event event;
      '(live_games, completed_games) ← gather_games rest;
      match g with
      | None => Ok (live_games, completed_games)
      | Some (true, game) => Ok (live_games, game :: completed_games)
      | Some (false, game) => Ok (game :: live_games, completed_games)
      end
  end.

(** [self.get_team_stats(team_id, second_half)] inside the loop. *)
Definition call_get_team_stats (team_id : value) (second_half : bool) : io value :=
  fun s =>
    let (stats, w) := get_team_stats team_id second_half (fst s) in
    (Ok (of_option stats), (w, snd s)).

(** [self.get_team_stats(team['team']['id'], second_half)]. *)
Definition team_stats (team : value) (second_half : bool) : io value :=
  team_id ← lift (py_getitem2 team "team" "id");
  call_get_team_stats team_id second_half.

(** The body of the loop of lines 285-303. *)
Definition show_live_game (game : game_info) : io unit :=
  home_stats ← team_stats (home_team game) false;
  away_stats ← team_stats (away_team game) false;
  home_perf ← lift (analyze_performance (VFloat (home_halftime game)) home_stats);
  away_perf ← lift (analyze_performance (VFloat (away_halftime game)) away_stats);
  game_status ← lift (py_getitem3 (event game) "status" "type" "detail");
  away_name ← lift (py_getitem2 (away_team game) "team" "name");
  home_name ← lift (py_getitem2 (home_team game) "team" "name");
  print (LiveLine (both_hot_or_cold home_perf away_perf)
           {| ll_away_name := away_name; ll_away_halftime := away_halftime game;
              ll_away_perf := away_perf;
              ll_home_name := home_name; ll_home_halftime := home_halftime game;
              ll_home_perf := home_perf;
              ll_status := game_status |}).

(** [float(team.get('score', 0))]. *)
Definition final_score (team : value) : result float :=
  score ← py_get team "score" (VInt 0);
  py_float score.

(** The body of the loop of lines 313-360. *)
Definition show_completed_game (game : game_info) : io unit :=
  home_final ← lift (final_score (home_team game));
  away_final ← lift (final_score (away_team game));
  let home_halftime := home_halftime game in
  let away_halftime := away_halftime game in
  let home_second_half := PrimFloat.sub home_final home_halftime in
  let away_second_half := PrimFloat.sub away_final away_halftime in
  home_stats ← team_stats (home_team game) false;
  home_first_perf ← lift (analyze_performance (VFloat home_halftime) home_stats);
  away_stats ← team_stats (away_team game) false;
  away_first_perf ← lift (analyze_performance (VFloat away_halftime) away_stats);
  home_stats2 ← team_stats (home_team game) true;
  home_second_perf ← lift (analyze_performance (VFloat home_second_half) home_stats2);
  away_stats2 ← team_stats (away_team game) true;
  away_second_perf ← lift (analyze_performance (VFloat away_second_half) away_stats2);
  away_name ← lift (py_getitem2 (away_team game) "team" "name");
  home_name ← lift (py_getitem2 (home_team game) "team" "name");
  print (FinalLine (both_hot_or_cold home_first_perf away_first_perf ||
                    both_hot_or_cold home_second_perf away_second_perf)
           {| fl_away_name := away_name; fl_away_halftime := away_halftime;
              fl_away_second_half := away_second_half;
              fl_away_first_perf := away_first_perf;
              fl_away_second_perf := away_second_perf;
              fl_home_name := home_name; fl_home_halftime := home_halftime;
              fl_home_second_half := home_second_half;
              fl_home_first_perf := home_first_perf;
              fl_home_second_perf := home_second_perf |}).

Definition is_nil {A : Type} (l : list A) : bool :=
  match l with [] => true | _ => false end.

(** Lines 277-363. *)
Definition show_games (live_games completed_games : list game_info) : io unit :=
  _ ← (if is_nil live_games then mret tt
       else _ ← print LiveHeader; _ ← print Rule;
            for_each show_live_game live_games);
  _ ← (if is_nil completed_games then mret tt
       else _ ← (if is_nil live_games then mret tt else print Blank);
            _ ← print CompletedHeader; _ ← print Rule;
            for_each show_completed_game completed_games);
  if is_nil live_games && is_nil completed_games then print NoGames else mret tt.

(** Lines 243-363, the inner [try] block, on what [requests.get(...).json()]
    gave. *)
Definition scoreboard_body (response : result value) : io unit :=
  data ← lift response;
  has_events ← lift (py_contains "events" data);
  if negb has_events then mret tt
  else
    events ← lift (e ← py_getitem data "events"; py_iter e);
    games ← lift (gather_games events);
    show_games (fst games) (snd games).

(** One pass of the [while] loop, up to the [sleep]: the inner [try] with
    its [except Exception], then the two closing lines. *)
Definition monitor_pass (response : result value) (w : world)
  : world * list output :=
  let s1 :=
    match scoreboard_body response (w, []) with
    | (Ok _, s) => s
    | (Raise e, s) => (fst s, (snd s ++ [ErrorLine e])%list)
    end in
  let w1 := fst s1 in
  ({| state := state w1; ticks := S (ticks w1); requests := requests w1 |},
   (snd s1 ++ [ExitHint; LastUpdated (clock (ticks w1))])%list).

End Tracker.

(** ** Example surroundings *)

Definition digit_of_ascii (c : ascii) : option Z :=
  let n := nat_of_ascii c in
  if ((48 <=? n)%nat && (n <=? 57)%nat)%bool then Some (Z.of_nat (n - 48)) else None.

Fixpoint digits_value (acc : Z) (s : string) : option Z :=
  match s with
  | EmptyString => Some acc
  | String c s' =>
      match digit_of_ascii c with
      | Some d => digits_value (10 * acc + d) s'
      | None => None
      end
  end.

(** [float(s)] on the strings the examples use: the float of a run of
    decimal digits, [ValueError] for a string with no digit in it. *)
Definition float_of_digits (s : string) : option float :=
  match s with
  | EmptyString => None
  | _ =>
      match digits_value 0 s with
      | Some n => match float_of_int n with Ok f => Some f | Raise _ => None end
      | None => None
      end
  end.

(** [float] as the examples use it. *)
Definition digits_only : builtins := {| float_of_string := float_of_digits |}.

(** The statistics site cannot be reached; the clock stands still. *)
Definition offline : environment :=
  {| clock := fun _ => 0; http_get := fun _ _ => Failed |}.

(** A tracker that has fetched nothing yet. *)
Definition fresh_world : world :=
  {| state := {| nba_halftime_averages := ∅;
                 nba_second_half_averages := ∅;
                 last_averages_update := None |};
     ticks := 0; requests := 0 |}.

(** The two statistics pages, as the rows of their tables; the header row
    has no [td] cell. *)
Definition first_half_page : page :=
  Table [ []; ["1"; "LA Lakers"; "52"]; ["2"; " Boston "; "48"]; ["3"; "New York"; "n/a"] ].
Definition second_half_page : page :=
  Table [ []; ["1"; "LA Lakers"; "50"]; ["2"; "Boston"; "47"]; ["3"; "Miami"] ].

(** The statistics site answers; the clock stands still. *)
Definition online : environment :=
  {| clock := fun _ => 0;
     http_get := fun _ url =>
       if String.eqb url first_half_url then first_half_page else second_half_page |}.

(** One entry of [linescores]. *)
Definition period (points : float) : value := VDict [("value", VFloat points)].

(** A competitor of the scoreboard. *)
Definition competitor (id name : string) (score : value) (linescores : list value)
  : value :=
  VDict [ ("team", VDict [("id", VStr id); ("name", VStr name)]);
          ("score", score);
          ("linescores", VList linescores) ].

(** An event of the scoreboard, home team first. *)
Definition scoreboard_event (state detail : string) (home away : value) : value :=
  VDict [ ("competitions", VList [VDict [("competitors", VList [home; away])]]);
          ("status", VDict [("type", VDict [("state", VStr state);
                                            ("detail", VStr detail)])]) ].

Definition scoreboard (events : list value) : value := VDict [("events", VList events)].

Definition lakers : value :=
  competitor "14" "Lakers" (VStr "110") [period 30; period 25; period 28; period 27].
Definition celtics : value :=
  competitor "2" "Celtics" (VStr "95") [period 26; period 24; period 20; period 25].
Definition knicks : value :=
  competitor "20" "Knicks" (VStr "51") [period 27; period 24].
Definition heat : value :=
  competitor "16" "Heat" (VStr "49") [period 22; period 27].
(** The Bulls with a single scoring period so far. *)
Definition bulls : value :=
  competitor "5" "Bulls" (VStr "20") [period 20].
Definition pistons : value :=
  competitor "9" "Pistons" (VStr "31") [period 31].
(** The Lakers with a final score that is no number. *)
Definition lakers_no_score : value :=
  competitor "14" "Lakers" (VStr "N/A") [period 30; period 25; period 28; period 27].

Definition lakers_celtics : value := scoreboard_event "post" "Final" lakers celtics.
Definition knicks_heat : value := scoreboard_event "in" "Halftime" knicks heat.
Definition knicks_heat_final : value := scoreboard_event "post" "Final" knicks heat.
Definition bulls_pistons : value := scoreboard_event "in" "End of 1st" bulls pistons.
Definition lakers_celtics_no_score : value :=
  scoreboard_event "post" "Final" lakers_no_score celtics.
Definition lakers_celtics_live_no_score : value :=
  scoreboard_event "in" "Halftime" lakers_no_score celtics.

(** The game of [lakers_celtics] as the gathering loop lists it. *)
Definition lakers_celtics_game : game_info :=
  {| event := lakers_celtics; home_team := lakers; away_team := celtics;
     home_halftime := 55; away_halftime := 50 |}.

(** The tracker after a first refresh from the [online] site. *)
Definition warm_world : world :=
  update_nba_halftime_averages (python := digits_only) (env := online) fresh_world.


(** Three events: one with a single period so far, one live, one completed. *)
Definition three_events : list value := [bulls_pistons; knicks_heat; lakers_celtics].

(** ** Specification-level definitions *)

(** [diff_pct = (actual - expected) / expected * 100]. *)
Definition diff_pct (actual expected : float) : float :=
  PrimFloat.mul (PrimFloat.div (PrimFloat.sub actual expected) expected) f100.

(** Resolution as the specification words it: the numeric-code table first,
    then the first nickname, in table order, that occurs in the identifier
    when both are lowercased. *)
Definition resolve_spec (team_id : string) : option string :=
  match lookup_item team_id team_id_mappings with
  | Some nickname => lookup_item nickname nba_team_mappings
  | None =>
      snd <$> List.find (fun kv => contains_str (lower (fst kv)) (lower team_id))
                        nba_team_mappings
  end.

Section Specification.

Context {python : builtins} {env : environment}.

(** The average looked up for a string identifier, on a given tracker. *)
Definition average_of (t : tracker) (team_id : string) (second_half : bool)
  : option float :=
  match resolve_spec team_id with
  | Some team_name =>
      if second_half then nba_second_half_averages t !! team_name
      else nba_halftime_averages t !! team_name
  | None => None
  end.

(** The staleness test of [get_team_stats]: no timestamp, or one more than
    an hour before the clock's reading. *)
Definition stale (w : world) : Prop :=
  match last_averages_update (state w) with
  | None => True
  | Some last => (one_hour < clock (ticks w) - last)%Z
  end.

(** A computation keeps a property of the lines printed so far, and prints
    only lines that have it. *)
Definition keeps (P : output -> Prop) {A : Type} (m : io A) : Prop :=
  forall s r s', m s = (r, s') -> Forall P (snd s) -> Forall P (snd s').

(** Two teams share a rating that is hot or cold. *)
Definition share_hot_or_cold (home away : PerformanceRating) : Prop :=
  home = away /\ (home = Hot \/ home = Cold).

(** The emphasis of a game line is as the highlight tests decide it. *)
Definition emphasis_as_designed (o : output) : Prop :=
  match o with
  | LiveLine bold l =>
      bold = true <-> share_hot_or_cold (ll_home_perf l) (ll_away_perf l)
  | FinalLine bold l =>
      bold = true <->
      share_hot_or_cold (fl_home_first_perf l) (fl_away_first_perf l) \/
      share_hot_or_cold (fl_home_second_perf l) (fl_away_second_perf l)
  | _ => True
  end.

(** The games the gathering loop lists, live ([post = false]) or completed
    ([post = true]), in the order of the events. *)
Fixpoint games_of (post : bool) (events : list value) : list game_info :=
  match events with
  | [] => []
  | event :: rest =>
      match gather_event event with
      | Ok (Some (b, game)) =>
          if Bool.eqb b post then game :: games_of post rest else games_of post rest
      | _ => games_of post rest
      end
  end.

Definition is_game_line (o : output) : bool :=
  match o with
  | LiveLine _ _ | FinalLine _ _ => true
  | _ => false
  end.

(** The game lines among what was printed. *)
Definition game_lines (out : list output) : list output :=
  List.filter is_game_line out.

(** A line is the line of a live game: its names and first-half scores. *)
Definition shows_live (game : game_info) (o : output) : Prop :=
  exists bold l,
    o = LiveLine bold l /\
    ll_home_halftime l = home_halftime game /\
    ll_away_halftime l = away_halftime game /\
    py_getitem2 (home_team game) "team" "name" = Ok (ll_home_name l) /\
    py_getitem2 (away_team game) "team" "name" = Ok (ll_away_name l).

(** A line is the line of a completed game. *)
Definition shows_final (game : game_info) (o : output) : Prop :=
  exists bold l,
    o = FinalLine bold l /\
    fl_home_halftime l = home_halftime game /\
    fl_away_halftime l = away_halftime game /\
    py_getitem2 (home_team game) "team" "name" = Ok (fl_home_name l) /\
    py_getitem2 (away_team game) "team" "name" = Ok (fl_away_name l).

End Specification.

(** ** Further specification-level definitions *)

Section FurtherSpecification.

Context {python : builtins} {env : environment}.

(** What one row of a statistics table adds to a cache: the team of its
    second cell with the average of its third, nothing when the row has
    fewer than three cells or the third is no float. *)
Definition row_entry (cols : list string) : option (string * float) :=
  if (3 <=? length cols)%nat then
    match float_of_string (strip (nth 2 cols "")) with
    | Some avg_score => Some (strip (nth 1 cols ""), avg_score)
    | None => None
    end
  else None.

(** The average rows give for a team: that of the last row that has one. *)
Fixpoint table_average (team_name : string) (rows : list (list string))
  : option float :=
  match rows with
  | [] => None
  | cols :: rest =>
      match table_average team_name rest with
      | Some avg_score => Some avg_score
      | None =>
          match row_entry cols with
          | Some (name, avg_score) =>
              if String.eqb name team_name then Some avg_score else None
          | None => None
          end
      end
  end.

(** The statistics site never yields the first-half table. *)
Definition first_half_down : Prop :=
  forall n rows, http_get n first_half_url <> Table rows.

(** A run of calls of [get_team_stats], one after the other. *)
Fixpoint lookups (calls : list (value * bool)) (w : world) : world :=
  match calls with
  | [] => w
  | (team_id, second_half) :: rest =>
      lookups rest (snd (get_team_stats team_id second_half w))
  end.

(** [SportsScoreTracker()]: empty caches, no timestamp, then the initial
    fetch of the averages. *)
Definition new_tracker : world :=
  update_nba_halftime_averages
    {| state := {| nba_halftime_averages := ∅;
                   nba_second_half_averages := ∅;
                   last_averages_update := None |};
       ticks := 0; requests := 0 |}.

(** A listed game is one of the events, with the two competitors of that
    event, their first-half scores, and the state that put it on its list. *)
Definition game_of_event (post : bool) (events : list value) (game : game_info) : Prop :=
  In (event game) events /\
  competitors_of (event game) = Ok (home_team game, away_team game) /\
  get_halftime_score (home_team game) = Some (home_halftime game) /\
  get_halftime_score (away_team game) = Some (away_halftime game) /\
  exists state,
    py_getitem3 (event game) "status" "type" "state" = Ok state /\
    eq_str "post" state = post.

(** A computation keeps [I] of the tracker and the lines printed, and what
    it returns has [Q]. *)
Definition io_spec (I : world * list output -> Prop) {A : Type}
  (m : io A) (Q : A -> Prop) : Prop :=
  forall s r s', m s = (r, s') -> I s ->
    I s' /\ forall a, r = Ok a -> Q a.

(** The statistics site yields no table at all. *)
Definition site_down : Prop :=
  forall n url rows, http_get n url <> Table rows.

(** Both caches are empty. *)
Definition no_averages (w : world) : Prop :=
  nba_halftime_averages (state w) = ∅ /\ nba_second_half_averages (state w) = ∅.

(** A game line without emphasis on which every rating is no-data. *)
Definition no_data_line (o : output) : Prop :=
  match o with
  | LiveLine bold l =>
      bold = false /\ ll_home_perf l = NoData /\ ll_away_perf l = NoData
  | FinalLine bold l =>
      bold = false /\
      fl_home_first_perf l = NoData /\ fl_away_first_perf l = NoData /\
      fl_home_second_perf l = NoData /\ fl_away_second_perf l = NoData
  | _ => True
  end.

(** The timestamp is at most an hour before every reading of the clock. *)
Definition always_fresh (w : world) : Prop :=
  exists last,
    last_averages_update (state w) = Some last /\
    forall n, (clock n - last <= one_hour)%Z.

(** What a pass prints before its closing lines when it lists [live] and
    [completed] games and their lines are [live_lines] and [final_lines]. *)
Definition layout (live completed : list game_info) (live_lines final_lines : list output)
  : list output :=
  ((if is_nil live then [] else LiveHeader :: Rule :: live_lines) ++
   (if is_nil completed then []
    else (if is_nil live then [] else [Blank]) ++
         CompletedHeader :: Rule :: final_lines) ++
   (if is_nil live && is_nil completed then [NoGames] else []))%list.

(** No character of the string is a letter. *)
Fixpoint caseless (s : string) : bool :=
  match s with
  | EmptyString => true
  | String c s' =>
      negb ((65 <=? nat_of_ascii c)%nat && (nat_of_ascii c <=? 90)%nat) &&
      negb ((97 <=? nat_of_ascii c)%nat && (nat_of_ascii c <=? 122)%nat) &&
      caseless s'
  end.

End FurtherSpecification.

(** ** Facts about floats and strings *)

Lemma f5_spec : Prim2SF f5 = S754_finite false 5629499534213120 (-50).
Proof. vm_compute. reflexivity. Qed.

Lemma fneg5_spec : Prim2SF fneg5 = S754_finite true 5629499534213120 (-50).
Proof. vm_compute. reflexivity. Qed.

(** No float is both at least 5 and at most -5. *)
Lemma leb_5_not_leb_neg5 (d : float) :
  PrimFloat.leb f5 d = true -> PrimFloat.leb d fneg5 = false.
Proof.
  rewrite !leb_spec, f5_spec, fneg5_spec.
  unfold SFleb, SFcompare.
  destruct (Prim2SF d) as [s|s| |s m e]; try destruct s;
    intros H; first [ discriminate H | reflexivity ].
Qed.

Lemma prefix_append (p s : string) : String.prefix p (p ++ s) = true.
Proof.
  induction p as [|c p IH]; simpl.
  - destruct s; reflexivity.
  - destruct (ascii_dec c c) as [_|n]; [exact IH | contradiction].
Qed.

Lemma contains_str_prefix (p s : string) :
  String.prefix p s = true -> contains_str p s = true.
Proof. intros H. destruct s; cbn [contains_str]; rewrite H; reflexivity. Qed.

Lemma contains_str_append (p a b : string) : contains_str p (a ++ p ++ b) = true.
Proof.
  induction a as [|c a IH]; simpl.
  - apply contains_str_prefix. exact (prefix_append p b).
  - rewrite IH. apply orb_true_r.
Qed.

Lemma prefix_split (p s : string) :
  String.prefix p s = true -> exists b, s = p ++ b.
Proof.
  revert s; induction p as [|c p IH]; intros s H.
  - exists s. reflexivity.
  - destruct s as [|c' s]; simpl in H; [discriminate|].
    destruct (ascii_dec c c') as [->|]; [|discriminate].
    destruct (IH s H) as [b ->]. exists b. reflexivity.
Qed.

Lemma contains_str_split (p s : string) :
  contains_str p s = true -> exists a b, s = a ++ p ++ b.
Proof.
  induction s as [|c s IH]; cbn [contains_str]; intros H.
  - apply orb_true_iff in H as [H|H]; [|discriminate].
    destruct (prefix_split _ _ H) as [b Hb]. exists "", b. exact Hb.
  - apply orb_true_iff in H as [H|H].
    + destruct (prefix_split _ _ H) as [b Hb]. exists "", b. exact Hb.
    + destruct (IH H) as (a & b & ->). exists (String c a), b. reflexivity.
Qed.

Lemma lower_append (a b : string) : lower (a ++ b) = lower a ++ lower b.
Proof. induction a as [|c a IH]; simpl; [reflexivity | now rewrite IH]. Qed.

Lemma append_assoc (a b c : string) : (a ++ b) ++ c = a ++ b ++ c.
Proof.
  induction a as [|x a IH]; [reflexivity|].
  change (String x ((a ++ b) ++ c) = String x (a ++ b ++ c)). now f_equal.
Qed.

(** An identifier that contains "Hornets" contains "nets" once lowercased. *)
Lemma hornets_contains_nets (s : string) :
  contains_str "Hornets" s = true -> contains_str "nets" (lower s) = true.
Proof.
  intros H. destruct (contains_str_split _ _ H) as (a & b & ->).
  rewrite !lower_append.
  change (lower "Hornets") with ("hor" ++ "nets").
  rewrite append_assoc, <- (append_assoc (lower a) "hor").
  apply contains_str_append.
Qed.

Lemma lookup_item_In {A : Type} (k : string) (l : list (string * A)) (v : A) :
  lookup_item k l = Some v -> In (k, v) l.
Proof.
  induction l as [|[k' v'] l IH]; simpl; [discriminate|].
  destruct (String.eqb_spec k k') as [->|]; intros H.
  - left. congruence.
  - right. auto.
Qed.

(** No numeric code contains "Hornets". *)
Lemma hornets_not_a_code (s : string) :
  contains_str "Hornets" s = true -> lookup_item s team_id_mappings = None.
Proof.
  intros H. destruct (lookup_item s team_id_mappings) as [n|] eqn:E; [|reflexivity].
  apply lookup_item_In in E.
  assert (F : Forall (fun kv => contains_str "Hornets" (fst kv) = false) team_id_mappings)
    by (repeat constructor).
  rewrite List.Forall_forall in F. specialize (F _ E). simpl in F. congruence.
Qed.

Lemma search_by_name_cons (key market : string) (rest : list (string * string)) (s : string) :
  search_by_name ((key, market) :: rest) (VStr s) =
  if contains_str (lower key) (lower s) then Ok (Some market)
  else search_by_name rest (VStr s).
Proof. reflexivity. Qed.

(** The fallback loop finds the first nickname, in table order, that occurs
    in the identifier. *)
Lemma search_by_name_find (table : list (string * string)) (s : string) :
  search_by_name table (VStr s) =
  Ok (snd <$> List.find (fun kv => contains_str (lower (fst kv)) (lower s)) table).
Proof.
  induction table as [|[key market] rest IH]; [reflexivity|].
  rewrite search_by_name_cons. simpl.
  destruct (contains_str (lower key) (lower s)); [reflexivity | exact IH].
Qed.

(** Every nickname of the numeric-code table is a key of the market table,
    so the lookup of line 185 raises no [KeyError]. *)
Lemma nickname_has_market (code nickname : string) :
  lookup_item code team_id_mappings = Some nickname ->
  is_Some (lookup_item nickname nba_team_mappings).
Proof.
  intros H. apply lookup_item_In in H.
  assert (F : Forall (fun kv => is_Some (lookup_item (snd kv) nba_team_mappings))
                     team_id_mappings)
    by (repeat constructor; simpl; eexists; reflexivity).
  rewrite List.Forall_forall in F. exact (F _ H).
Qed.

(** Resolution of a string identifier never raises, and is [resolve_spec]. *)
Lemma resolve_team_name_string (s : string) :
  resolve_team_name (VStr s) = Ok (resolve_spec s).
Proof.
  unfold resolve_team_name, resolve_spec, known_code, mbind, result_bind.
  destruct (lookup_item s team_id_mappings) as [nickname|] eqn:E.
  - destruct (nickname_has_market _ _ E) as [market ->]. reflexivity.
  - apply search_by_name_find.
Qed.

(** ** Properties of the classification, aggregation and lookup *)

Section Properties.

Context {python : builtins} {env : environment}.

(** With a non-zero expected average the rating is read off [diff_pct]. *)
Lemma analyze_performance_floats (x e : float) :
  PrimFloat.eqb e f0 = false ->
  analyze_performance (VFloat x) (VFloat e) =
  Ok (if PrimFloat.leb f5 (diff_pct x e) then Hot
      else if PrimFloat.leb (diff_pct x e) fneg5 then Cold
      else Neutral).
Proof.
  intros H. unfold analyze_performance, truthy, py_float, py_fdiv, mbind, result_bind.
  rewrite H. unfold diff_pct. cbn [negb].
  destruct (PrimFloat.leb f5 _); [reflexivity|].
  destruct (PrimFloat.leb _ fneg5); reflexivity.
Qed.

(** The first-half score of a competitor record: the first two entries of
    its [linescores] list, when both can be read. *)
Lemma get_halftime_score_dict (d : list (string * value)) :
  get_halftime_score (VDict d) =
  match lookup_item "linescores" d with
  | Some (VList (p1 :: p2 :: _)) =>
      match period_value p1, period_value p2 with
      | Ok a, Ok b => Some (PrimFloat.add (PrimFloat.add f0 a) b)
      | _, _ => None
      end
  | _ => None
  end.
Proof.
  unfold get_halftime_score, halftime_body, py_contains, py_getitem,
    mbind, result_bind.
  destruct (lookup_item "linescores" d) as [v|] eqn:E; [|reflexivity].
  cbn [bool_decide negb].
  destruct v as [| | | | s | l | items]; try reflexivity.
  - (* a string: its characters have no [get] *)
    cbn [py_len]. destruct s as [|c1 [|c2 s]]; try reflexivity.
  - destruct l as [|p1 [|p2 l]]; try reflexivity.
    cbn [py_len length Nat.leb negb py_slice2 firstn sum_periods].
    unfold mbind, result_bind.
    destruct (period_value p1) as [a|]; [|reflexivity].
    destruct (period_value p2) as [b|]; reflexivity.
  - cbn [py_len]. destruct (2 <=? length items)%nat; reflexivity.
Qed.

(** A value that is not a dict has no first-half score. *)
Lemma get_halftime_score_not_dict (competitor : value) :
  (forall d, competitor <> VDict d) -> get_halftime_score competitor = None.
Proof.
  intros H. unfold get_halftime_score, halftime_body, mbind, result_bind.
  destruct competitor as [| | | | s | l | d]; try reflexivity.
  - cbn [py_contains]. destruct (contains_str "linescores" s); reflexivity.
  - cbn [py_contains]. destruct (existsb (eq_str "linescores") l); reflexivity.
  - destruct (H d eq_refl).
Qed.

Lemma resolve_spec_nonempty (s name : string) :
  resolve_spec s = Some name -> truthy (VStr name) = true.
Proof.
  assert (F : Forall (fun kv => truthy (VStr (snd kv)) = true) nba_team_mappings)
    by (repeat constructor).
  rewrite List.Forall_forall in F.
  unfold resolve_spec. destruct (lookup_item s team_id_mappings) as [nickname|].
  - intros H. apply lookup_item_In in H. exact (F _ H).
  - destruct (List.find _ nba_team_mappings) as [kv|] eqn:E; [|discriminate].
    intros H. apply List.find_some in E as [E _].
    injection H as <-. exact (F _ E).
Qed.

Lemma lookup_average_string (t : tracker) (s : string) (second_half : bool) :
  lookup_average t (VStr s) second_half = Ok (average_of t s second_half).
Proof.
  unfold lookup_average, average_of. rewrite resolve_team_name_string.
  unfold mbind, result_bind.
  destruct (resolve_spec s) as [name|] eqn:E; [|reflexivity].
  rewrite (resolve_spec_nonempty _ _ E). destruct second_half; reflexivity.
Qed.

Lemma update_requests (w : world) :
  requests (update_nba_halftime_averages w) = S (S (requests w)).
Proof.
  unfold update_nba_halftime_averages, update_second_half, update_first_half.
  destruct (http_get (requests w) first_half_url); cbn [requests];
    destruct (http_get _ second_half_url); reflexivity.
Qed.

(** *** The claims on [analyze_performance], [get_halftime_score],
    [update_nba_halftime_averages] and [get_team_stats] *)

(** C1. [analyze_performance] gives no-data when the expected average is
    absent or falsy (zero). Otherwise, with
    [diff_pct = (x - e) / e * 100], it gives hot when [diff_pct >= 5], cold
    when [diff_pct <= -5] and neutral otherwise; both thresholds are
    inclusive: exactly 5 is hot, exactly -5 is cold. *)
Theorem analyze_performance_thresholds (actual : value) (x : float) :
  (forall e : value, truthy e = false -> analyze_performance actual e = Ok NoData) /\
  analyze_performance (VFloat x) (of_option None) = Ok NoData /\
  (forall e : float, PrimFloat.eqb e f0 = true ->
     analyze_performance (VFloat x) (of_option (Some e)) = Ok NoData) /\
  (forall e : float, PrimFloat.eqb e f0 = false ->
     let r := analyze_performance (VFloat x) (of_option (Some e)) in
     let d := diff_pct x e in
     (PrimFloat.leb f5 d = true -> r = Ok Hot) /\
     (PrimFloat.leb d fneg5 = true -> r = Ok Cold) /\
     (PrimFloat.leb f5 d = false -> PrimFloat.leb d fneg5 = false -> r = Ok Neutral) /\
     (d = f5 -> r = Ok Hot) /\
     (d = fneg5 -> r = Ok Cold)).
Proof.
  split; [|split; [|split]].
  - intros e He. unfold analyze_performance. rewrite He. reflexivity.
  - reflexivity.
  - intros e He. unfold analyze_performance, of_option, truthy. rewrite He. reflexivity.
  - intros e He r d. subst r d. cbn [of_option].
    rewrite (analyze_performance_floats x e He).
    repeat split.
    + intros ->. reflexivity.
    + intros Hc. destruct (PrimFloat.leb f5 (diff_pct x e)) eqn:Hh.
      * apply leb_5_not_leb_neg5 in Hh. congruence.
      * rewrite Hc. reflexivity.
    + intros -> ->. reflexivity.
    + intros ->. reflexivity.
    + intros ->. reflexivity.
Qed.

(** C2, amended. For a competitor record whose [linescores] list has at
    least two entries that can be read, the first-half score is the sum of
    the first two; an entry without a [value] counts 0, an entry with one
    counts its [float]. When one of the first two entries cannot be read (it
    is not a record, or its value is no number) the result is absent, and so
    it is whenever fewer than two scoring periods are present. *)
Theorem get_halftime_score_first_two (d : list (string * value)) :
  (forall p1 p2 rest a b,
     lookup_item "linescores" d = Some (VList (p1 :: p2 :: rest)) ->
     period_value p1 = Ok a -> period_value p2 = Ok b ->
     get_halftime_score (VDict d) = Some (PrimFloat.add (PrimFloat.add f0 a) b)) /\
  (forall e, lookup_item "value" e = None -> period_value (VDict e) = Ok f0) /\
  (forall e v, lookup_item "value" e = Some v -> period_value (VDict e) = py_float v) /\
  (forall p, (forall e, p <> VDict e) -> period_value p = Raise AttributeError) /\
  (forall p1 p2 rest ex,
     lookup_item "linescores" d = Some (VList (p1 :: p2 :: rest)) ->
     period_value p1 = Raise ex \/ period_value p2 = Raise ex ->
     get_halftime_score (VDict d) = None) /\
  (lookup_item "linescores" d = None -> get_halftime_score (VDict d) = None) /\
  (forall l, lookup_item "linescores" d = Some (VList l) -> (length l < 2)%nat ->
     get_halftime_score (VDict d) = None).
Proof.
  repeat split.
  - intros p1 p2 rest a b Hl Ha Hb.
    rewrite get_halftime_score_dict, Hl, Ha, Hb. reflexivity.
  - intros e He. unfold period_value, py_get, mbind, result_bind. rewrite He. reflexivity.
  - intros e v He. unfold period_value, py_get, mbind, result_bind. rewrite He. reflexivity.
  - intros p Hp. destruct p; try reflexivity. destruct (Hp items eq_refl).
  - intros p1 p2 rest ex Hl [Hr|Hr]; rewrite get_halftime_score_dict, Hl, Hr.
    + reflexivity.
    + destruct (period_value p1); reflexivity.
  - intros Hl. rewrite get_halftime_score_dict, Hl. reflexivity.
  - intros l Hl Hlen. rewrite get_halftime_score_dict, Hl.
    destruct l as [|p1 [|p2 l]]; try reflexivity. simpl in Hlen. lia.
Qed.

(** C3. When both fetches of a refresh fail, the two cached mappings are
    left as they were; and the timestamp becomes the clock's reading exactly
    when the first-half page yields its table, whatever the second fetch
    does: otherwise it stays as it was. *)
Theorem update_keeps_cache_on_failure (w : world) :
  let first := http_get (requests w) first_half_url in
  let second := http_get (S (requests w)) second_half_url in
  let w' := update_nba_halftime_averages w in
  ((forall rows, first <> Table rows) -> (forall rows, second <> Table rows) ->
   nba_halftime_averages (state w') = nba_halftime_averages (state w) /\
   nba_second_half_averages (state w') = nba_second_half_averages (state w)) /\
  last_averages_update (state w') =
    match first with
    | Table _ => Some (clock (ticks w))
    | NoTable | Failed => last_averages_update (state w)
    end.
Proof.
  cbv zeta.
  unfold update_nba_halftime_averages, update_second_half, update_first_half.
  destruct (http_get (requests w) first_half_url) as [| |rows1] eqn:E1;
    cbn [requests state ticks];
    destruct (http_get (S (requests w)) second_half_url) as [| |rows2] eqn:E2;
    cbn [state nba_halftime_averages nba_second_half_averages last_averages_update];
    (split; [intros H1 H2|reflexivity]);
    try (split; reflexivity);
    try (destruct (H1 rows1 eq_refl)); try (destruct (H2 rows2 eq_refl)).
Qed.


Lemma averages_stale_spec (w : world) :
  fst (averages_stale w) = true <-> stale w.
Proof.
  unfold averages_stale, stale.
  destruct (last_averages_update (state w)) as [last|]; cbn [fst].
  - apply Z.ltb_lt.
  - tauto.
Qed.

(** C6. A call of [get_team_stats] refreshes the averages (two requests)
    before it resolves the identifier exactly when there is no timestamp yet
    or the timestamp is more than 3600 seconds old; otherwise it makes no
    request and leaves the tracker as it is. *)
Theorem get_team_stats_refreshes_when_stale
  (team_id : value) (second_half : bool) (w : world) :
  let w' := snd (get_team_stats team_id second_half w) in
  (stale w <-> requests w' = (requests w + 2)%nat) /\
  (~ stale w <-> requests w' = requests w) /\
  (stale w -> w' = update_nba_halftime_averages (snd (averages_stale w))) /\
  (~ stale w -> state w' = state w) /\
  fst (get_team_stats team_id second_half w) =
    catch_none (lookup_average (state w') team_id second_half).
Proof.
  cbv zeta. unfold get_team_stats. cbn [fst snd].
  pose proof (averages_stale_spec w) as Hs.
  unfold refresh_if_stale.
  destruct (averages_stale w) as [b w1] eqn:E. cbn [fst snd] in *.
  assert (Hr : requests w1 = requests w).
  { unfold averages_stale in E.
    destruct (last_averages_update (state w)); injection E as _ <-; reflexivity. }
  assert (Ht : state w1 = state w).
  { unfold averages_stale in E.
    destruct (last_averages_update (state w)); injection E as _ <-; reflexivity. }
  destruct b.
  - assert (S1 : stale w) by (apply Hs; reflexivity).
    rewrite update_requests, Hr.
    repeat split; intros; try tauto; try lia; reflexivity.
  - assert (S1 : ~ stale w) by (intros H; apply Hs in H; discriminate).
    rewrite Hr.
    repeat split; intros; try tauto; try lia; try reflexivity; exact Ht.
Qed.

(** C9. [get_team_stats] raises nothing. For a string identifier no
    exception even arises inside it, and the result is absent when the
    identifier does not resolve or the resolved team has no recorded
    average; for any identifier, an exception inside it yields the absent
    result. *)
Theorem get_team_stats_total (s : string) (second_half : bool) (w : world) :
  let w' := refresh_if_stale w in
  lookup_average (state w') (VStr s) second_half = Ok (average_of (state w') s second_half) /\
  get_team_stats (VStr s) second_half w = (average_of (state w') s second_half, w') /\
  (resolve_spec s = None -> fst (get_team_stats (VStr s) second_half w) = None) /\
  (forall team_name, resolve_spec s = Some team_name ->
     (if second_half then nba_second_half_averages (state w')
      else nba_halftime_averages (state w')) !! team_name = None ->
     fst (get_team_stats (VStr s) second_half w) = None) /\
  (forall team_id e, lookup_average (state w') team_id second_half = Raise e ->
     get_team_stats team_id second_half w = (None, w')).
Proof.
  cbv zeta. unfold get_team_stats. cbn [fst].
  rewrite lookup_average_string. cbn [catch_none].
  repeat split.
  - intros H. unfold average_of. rewrite H. reflexivity.
  - intros name H Hn. unfold average_of. rewrite H.
    destruct second_half; exact Hn.
  - intros team_id e H. rewrite H. reflexivity.
Qed.

(** C10, amended. The fallback tries the nicknames in table order, and
    "nets" occurs in "hornets": an identifier that contains "Hornets"
    resolves to the market of the Hawks, the Celtics or the Nets, never to
    "Charlotte"; it resolves to "Brooklyn" when, lowercased, it contains
    neither "hawks" nor "celtics". *)
Theorem hornets_resolve_to_earlier_nickname (s : string) :
  contains_str "Hornets" s = true ->
  lookup_item s team_id_mappings = None /\
  resolve_team_name (VStr s) <> Ok (Some "Charlotte") /\
  (contains_str "hawks" (lower s) = false ->
   contains_str "celtics" (lower s) = false ->
   resolve_team_name (VStr s) = Ok (Some "Brooklyn")).
Proof.
  intros H.
  pose proof (hornets_not_a_code s H) as Hc.
  pose proof (hornets_contains_nets s H) as Hn.
  assert (R : resolve_team_name (VStr s) =
              if contains_str "hawks" (lower s) then Ok (Some "Atlanta")
              else if contains_str "celtics" (lower s) then Ok (Some "Boston")
              else Ok (Some "Brooklyn")).
  { unfold resolve_team_name, known_code, mbind, result_bind. rewrite Hc.
    unfold nba_team_mappings. rewrite !search_by_name_cons.
    change (lower "Hawks") with "hawks". change (lower "Celtics") with "celtics".
    change (lower "Nets") with "nets". rewrite Hn. reflexivity. }
  split; [exact Hc|]. split.
  - rewrite R. destruct (contains_str "hawks" (lower s));
      [|destruct (contains_str "celtics" (lower s))]; discriminate.
  - intros Hh Hcel. rewrite R, Hh, Hcel. reflexivity.
Qed.

(** *** Reasoning about the monitoring loop *)

Lemma io_bind_ok {A B : Type} (m : io A) (k : A -> io B) s (b : B) s' :
  (m ≫= k) s = (Ok b, s') ->
  exists a s1, m s = (Ok a, s1) /\ k a s1 = (Ok b, s').
Proof.
  unfold mbind, io_bind. destruct (m s) as [[a|e] s1]; intros H.
  - exists a, s1. split; [reflexivity | exact H].
  - discriminate H.
Qed.

Lemma lift_ok {A : Type} (r : result A) s (a : A) s' :
  lift r s = (Ok a, s') -> r = Ok a /\ s' = s.
Proof. unfold lift. intros H. injection H as -> ->. split; reflexivity. Qed.

Lemma print_ok (o : output) s u s' :
  print o s = (Ok u, s') -> s' = (fst s, (snd s ++ [o])%list).
Proof. unfold print. intros H. injection H as _ <-. reflexivity. Qed.

Lemma team_stats_ok (team : value) (second_half : bool) s (v : value) s' :
  team_stats team second_half s = (Ok v, s') ->
  exists team_id,
    py_getitem2 team "team" "id" = Ok team_id /\
    v = of_option (fst (get_team_stats team_id second_half (fst s))) /\
    s' = (snd (get_team_stats team_id second_half (fst s)), snd s).
Proof.
  unfold team_stats. intros H.
  apply io_bind_ok in H as (team_id & s1 & H1 & H2).
  apply lift_ok in H1 as [H1 ->]. exists team_id. split; [exact H1|].
  unfold call_get_team_stats in H2.
  destruct (get_team_stats team_id second_half (fst s)) as [stats w1].
  injection H2 as <- <-. split; reflexivity.
Qed.

(** Inversion of a run of the loop body that raised nothing. *)
Ltac io_inv H :=
  repeat
    match type of H with
    | (mbind _ _) _ = (Ok _, _) =>
        let a := fresh "a" in
        let s1 := fresh "s" in
        let H1 := fresh "H" in
        apply io_bind_ok in H as (a & s1 & H1 & H);
        first [ apply lift_ok in H1 as [H1 ->]
              | let id := fresh "team_id" in
                let Hid := fresh "Hid" in
                apply team_stats_ok in H1 as (id & Hid & -> & ->) ]
    end.

Lemma keeps_bind (P : output -> Prop) {A B : Type} (m : io A) (k : A -> io B) :
  keeps P m -> (forall a, keeps P (k a)) -> keeps P (m ≫= k).
Proof.
  intros Hm Hk s r s'. unfold mbind, io_bind.
  destruct (m s) as [[a|e] s1] eqn:E; intros H F.
  - exact (Hk a _ _ _ H (Hm _ _ _ E F)).
  - injection H as _ <-. exact (Hm _ _ _ E F).
Qed.

Lemma keeps_ret (P : output -> Prop) {A : Type} (a : A) : keeps P (mret a).
Proof. intros s r s' H F. injection H as _ <-. exact F. Qed.

Lemma keeps_lift (P : output -> Prop) {A : Type} (r : result A) : keeps P (lift r).
Proof. intros s r' s' H F. injection H as _ <-. exact F. Qed.

Lemma keeps_print (P : output -> Prop) (o : output) : P o -> keeps P (print o).
Proof.
  intros Ho s r s' H F. injection H as _ <-. cbn [snd].
  apply Forall_app. split; [exact F | constructor; [exact Ho | constructor]].
Qed.

Lemma keeps_team_stats (P : output -> Prop) (team : value) (second_half : bool) :
  keeps P (team_stats team second_half).
Proof.
  apply keeps_bind; [apply keeps_lift|].
  intros team_id s r s' H F. unfold call_get_team_stats in H.
  destruct (get_team_stats team_id second_half (fst s)).
  injection H as _ <-. exact F.
Qed.

Lemma keeps_for_each (P : output -> Prop) {A : Type} (body : A -> io unit) (l : list A) :
  (forall x, keeps P (body x)) -> keeps P (for_each body l).
Proof.
  intros Hb. induction l as [|x l IH]; cbn [for_each].
  - apply keeps_ret.
  - apply keeps_bind; [apply Hb | intros _; exact IH].
Qed.

Lemma both_hot_or_cold_spec (home away : PerformanceRating) :
  both_hot_or_cold home away = true <-> share_hot_or_cold home away.
Proof.
  unfold share_hot_or_cold.
  destruct home, away; vm_compute; split;
    first [ discriminate | intros [E _]; discriminate E
          | intros [_ [E|E]]; discriminate E | intuition ].
Qed.

Lemma show_live_game_keeps (game : game_info) :
  keeps emphasis_as_designed (show_live_game game).
Proof.
  unfold show_live_game.
  repeat (apply keeps_bind;
          [first [apply keeps_team_stats | apply keeps_lift] | intros ?]).
  apply keeps_print. cbn. apply both_hot_or_cold_spec.
Qed.

Lemma show_completed_game_keeps (game : game_info) :
  keeps emphasis_as_designed (show_completed_game game).
Proof.
  unfold show_completed_game.
  repeat (apply keeps_bind;
          [first [apply keeps_team_stats | apply keeps_lift] | intros ?]).
  apply keeps_print. cbn. rewrite orb_true_iff, !both_hot_or_cold_spec. tauto.
Qed.

Lemma show_games_keeps (live_games completed_games : list game_info) :
  keeps emphasis_as_designed (show_games live_games completed_games).
Proof.
  unfold show_games.
  apply keeps_bind; [|intros _; apply keeps_bind; [|intros _]].
  - destruct (is_nil live_games); [apply keeps_ret|].
    repeat (apply keeps_bind; [apply keeps_print; exact I | intros _]).
    apply keeps_for_each, show_live_game_keeps.
  - destruct (is_nil completed_games); [apply keeps_ret|].
    apply keeps_bind.
    + destruct (is_nil live_games); [apply keeps_ret | apply keeps_print; exact I].
    + intros _.
      repeat (apply keeps_bind; [apply keeps_print; exact I | intros _]).
      apply keeps_for_each, show_completed_game_keeps.
  - destruct (is_nil live_games && is_nil completed_games);
      [apply keeps_print; exact I | apply keeps_ret].
Qed.

Lemma scoreboard_body_keeps (response : result value) :
  keeps emphasis_as_designed (scoreboard_body response).
Proof.
  unfold scoreboard_body.
  repeat (apply keeps_bind; [apply keeps_lift | intros ?]).
  destruct (negb _); [apply keeps_ret|].
  repeat (apply keeps_bind; [apply keeps_lift | intros ?]).
  apply show_games_keeps.
Qed.

(** C7, amended. A game line is emphasised if and only if both teams are
    hot or both are cold; for a completed game, if and only if they are both
    hot or both cold in the same half, first or second. (Two teams that
    share the no-data rating give no emphasis.) *)
Theorem emphasis_iff_both_hot_or_both_cold (response : result value) (w : world) :
  Forall emphasis_as_designed (snd (monitor_pass response w)).
Proof.
  unfold monitor_pass. cbn [snd].
  destruct (scoreboard_body response (w, [])) as [r s] eqn:E.
  pose proof (scoreboard_body_keeps response _ _ _ E (List.Forall_nil _)) as F.
  apply Forall_app. split.
  - destruct r; cbn [snd]; [exact F|].
    apply Forall_app. split; [exact F | repeat constructor].
  - repeat constructor.
Qed.

(** C5. For a completed game the second-half score, shown on the line and
    passed to the classification together with the second-half average, is
    the final score minus the first-half score, for the home team and for
    the away team: each second-half rating of the line is that of
    [analyze_performance] on this difference and on what [get_team_stats]
    returns, with [second_half] set, on the tracker as the lookups before it
    left it. *)
Theorem second_half_is_final_minus_first_half (game : game_info) s s' :
  show_completed_game game s = (Ok tt, s') ->
  exists home_final away_final bold line home_id away_id,
    final_score (home_team game) = Ok home_final /\
    final_score (away_team game) = Ok away_final /\
    snd s' = (snd s ++ [FinalLine bold line])%list /\
    fl_home_second_half line = PrimFloat.sub home_final (home_halftime game) /\
    fl_away_second_half line = PrimFloat.sub away_final (away_halftime game) /\
    py_getitem2 (home_team game) "team" "id" = Ok home_id /\
    py_getitem2 (away_team game) "team" "id" = Ok away_id /\
    let w1 := snd (get_team_stats home_id false (fst s)) in
    let w2 := snd (get_team_stats away_id false w1) in
    let w3 := snd (get_team_stats home_id true w2) in
    let w4 := snd (get_team_stats away_id true w3) in
    analyze_performance
      (VFloat (home_halftime game))
      (of_option (fst (get_team_stats home_id false (fst s))))
    = Ok (fl_home_first_perf line) /\
    analyze_performance
      (VFloat (away_halftime game))
      (of_option (fst (get_team_stats away_id false w1)))
    = Ok (fl_away_first_perf line) /\
    analyze_performance
      (VFloat (PrimFloat.sub home_final (home_halftime game)))
      (of_option (fst (get_team_stats home_id true w2)))
    = Ok (fl_home_second_perf line) /\
    analyze_performance
      (VFloat (PrimFloat.sub away_final (away_halftime game)))
      (of_option (fst (get_team_stats away_id true w3)))
    = Ok (fl_away_second_perf line) /\
    fst s' = w4.
Proof.
  unfold show_completed_game. cbv zeta. intros H.
  io_inv H. apply print_ok in H. subst s'. cbn [snd fst] in *.
  repeat match goal with
         | H1 : py_getitem2 ?t "team" "id" = Ok ?a,
           H2 : py_getitem2 ?t "team" "id" = Ok ?b |- _ =>
             assert (b = a) by congruence; subst b; clear H2
         end.
  do 4 eexists. eexists _, _.
  repeat split; try eassumption; try reflexivity.
Qed.

Lemma gather_games_ok (events : list value) (live completed : list game_info) :
  gather_games events = Ok (live, completed) ->
  live = games_of false events /\ completed = games_of true events /\
  Forall (fun event => exists r, gather_event event = Ok r) events.
Proof.
  revert live completed.
  induction events as [|event rest IH]; intros live completed H.
  - injection H as <- <-. repeat split. constructor.
  - cbn [gather_games games_of] in *. unfold mbind, result_bind in H.
    destruct (gather_event event) as [g|] eqn:E; [|discriminate].
    destruct (gather_games rest) as [[l c]|]; [|discriminate].
    destruct (IH l c eq_refl) as (-> & -> & F).
    assert (F' : Forall (fun event => exists r, gather_event event = Ok r) (event :: rest))
      by (constructor; [eexists; exact E | exact F]).
    destruct g as [[[] game]|]; injection H as <- <-; repeat split; exact F'.
Qed.

Lemma games_of_In (post : bool) (events : list value) (event : value) (game : game_info) :
  In event events -> gather_event event = Ok (Some (post, game)) ->
  In game (games_of post events).
Proof.
  induction events as [|e rest IH]; [intros []|]; intros [<-|H] G; cbn [games_of].
  - rewrite G, eqb_reflx. left. reflexivity.
  - specialize (IH H G).
    destruct (gather_event e) as [[[b g]|]|]; try exact IH.
    destruct (Bool.eqb b post); [right|]; exact IH.
Qed.

Lemma Forall2_In_l {A B : Type} (R : A -> B -> Prop) (l : list A) (l' : list B) (x : A) :
  Forall2 R l l' -> In x l -> exists y, In y l' /\ R x y.
Proof.
  induction 1 as [|a b l l' Hab _ IH]; [intros []|]; intros [<-|H].
  - exists b. split; [left; reflexivity | exact Hab].
  - destruct (IH H) as (y & Hy & Hr). exists y. split; [right; exact Hy | exact Hr].
Qed.

Lemma show_live_game_ok (game : game_info) s s' :
  show_live_game game s = (Ok tt, s') ->
  exists o, snd s' = (snd s ++ [o])%list /\ shows_live game o.
Proof.
  unfold show_live_game. intros H.
  io_inv H. apply print_ok in H. subst s'. cbn [snd fst].
  eexists. split; [reflexivity|].
  do 2 eexists. split; [reflexivity|]. cbn. repeat split; assumption.
Qed.

Lemma show_completed_game_ok (game : game_info) s s' :
  show_completed_game game s = (Ok tt, s') ->
  exists o, snd s' = (snd s ++ [o])%list /\ shows_final game o.
Proof.
  unfold show_completed_game. cbv zeta. intros H.
  io_inv H. apply print_ok in H. subst s'. cbn [snd fst].
  eexists. split; [reflexivity|].
  do 2 eexists. split; [reflexivity|]. cbn. repeat split; assumption.
Qed.

Lemma for_each_ok (shows : game_info -> output -> Prop) (body : game_info -> io unit) :
  (forall game s s', body game s = (Ok tt, s') ->
     exists o, snd s' = (snd s ++ [o])%list /\ shows game o) ->
  forall games s s', for_each body games s = (Ok tt, s') ->
  exists lines, snd s' = (snd s ++ lines)%list /\ Forall2 shows games lines.
Proof.
  intros Hb games. induction games as [|game rest IH]; intros s s' H.
  - injection H as <-. exists []. split; [symmetry; apply app_nil_r | constructor].
  - cbn [for_each] in H. apply io_bind_ok in H as ([] & s1 & H1 & H).
    destruct (Hb _ _ _ H1) as (o & E1 & Ho).
    destruct (IH _ _ H) as (lines & E2 & Hl).
    exists (o :: lines). split; [|constructor; assumption].
    rewrite E2, E1, <- app_assoc. reflexivity.
Qed.

Lemma game_lines_app (a b : list output) :
  game_lines (a ++ b) = (game_lines a ++ game_lines b)%list.
Proof. apply List.filter_app. Qed.

Lemma game_lines_shown (shows : game_info -> output -> Prop) games lines :
  (forall game o, shows game o -> is_game_line o = true) ->
  Forall2 shows games lines -> game_lines lines = lines.
Proof.
  intros Hs. induction 1 as [|g o games lines Hgo _ IH]; [reflexivity|].
  unfold game_lines in *. cbn [List.filter]. rewrite (Hs _ _ Hgo), IH. reflexivity.
Qed.

Lemma shows_live_game_line game o : shows_live game o -> is_game_line o = true.
Proof. intros (b & l & -> & _). reflexivity. Qed.

Lemma shows_final_game_line game o : shows_final game o -> is_game_line o = true.
Proof. intros (b & l & -> & _). reflexivity. Qed.

Lemma show_games_ok (live completed : list game_info) s s' :
  show_games live completed s = (Ok tt, s') ->
  exists live_lines final_lines,
    game_lines (snd s') = (game_lines (snd s) ++ live_lines ++ final_lines)%list /\
    Forall2 shows_live live live_lines /\
    Forall2 shows_final completed final_lines.
Proof.
  unfold show_games. intros H.
  apply io_bind_ok in H as ([] & s1 & H1 & H).
  apply io_bind_ok in H as ([] & s2 & H2 & H).
  assert (L : exists live_lines,
             game_lines (snd s1) = (game_lines (snd s) ++ live_lines)%list /\
             Forall2 shows_live live live_lines).
  { destruct live as [|g l]; cbn [is_nil] in H1.
    - injection H1 as <-. exists []. rewrite app_nil_r. split; [reflexivity | constructor].
    - apply io_bind_ok in H1 as ([] & sa & Ha & H1).
      apply io_bind_ok in H1 as ([] & sb & Hb & H1).
      apply print_ok in Ha, Hb. subst sa sb.
      destruct (for_each_ok shows_live show_live_game show_live_game_ok _ _ _ H1)
        as (lines & E & F).
      exists lines. split; [|exact F]. rewrite E. cbn [snd fst].
      rewrite !game_lines_app, (game_lines_shown _ _ _ shows_live_game_line F).
      cbn. rewrite !app_nil_r. reflexivity. }
  assert (C : exists final_lines,
             game_lines (snd s2) = (game_lines (snd s1) ++ final_lines)%list /\
             Forall2 shows_final completed final_lines).
  { destruct completed as [|g l]; cbn [is_nil] in H2.
    - injection H2 as <-. exists []. rewrite app_nil_r. split; [reflexivity | constructor].
    - apply io_bind_ok in H2 as ([] & sa & Ha & H2).
      apply io_bind_ok in H2 as ([] & sb & Hb & H2).
      apply io_bind_ok in H2 as ([] & sc & Hc & H2).
      apply print_ok in Hb, Hc. subst sb sc.
      assert (Ea : game_lines (snd sa) = game_lines (snd s1)).
      { destruct (is_nil live).
        - injection Ha as <-. reflexivity.
        - apply print_ok in Ha. subst sa. cbn [snd].
          rewrite game_lines_app. cbn. apply app_nil_r. }
      destruct (for_each_ok shows_final show_completed_game show_completed_game_ok _ _ _ H2)
        as (lines & E & F).
      exists lines. split; [|exact F]. rewrite E. cbn [snd fst].
      rewrite !game_lines_app, (game_lines_shown _ _ _ shows_final_game_line F), Ea.
      cbn. rewrite !app_nil_r. reflexivity. }
  destruct L as (live_lines & EL & FL). destruct C as (final_lines & EC & FC).
  exists live_lines, final_lines. split; [|split; assumption].
  assert (E : game_lines (snd s') = game_lines (snd s2)).
  { destruct (is_nil live && is_nil completed).
    - apply print_ok in H. subst s'. cbn [snd].
      rewrite game_lines_app. cbn. apply app_nil_r.
    - injection H as <-. reflexivity. }
  rewrite E, EC, EL, <- app_assoc. reflexivity.
Qed.

(** C8, amended. In a pass over a fetched scoreboard that raises nothing, a
    game is left out exactly when the first-half score of one of its two
    teams is absent (no [linescores], fewer than two periods, an entry that
    cannot be read); every other game has its line, the live games first and
    then the completed ones, each in the order of the scoreboard. *)
Theorem missing_linescores_skip_only_that_game
  (data : value) (events : list value) (w : world) s' :
  py_contains "events" data = Ok true ->
  (e ← py_getitem data "events"; py_iter e) = Ok events ->
  scoreboard_body (Ok data) (w, []) = (Ok tt, s') ->
  exists live_lines final_lines,
    game_lines (snd (monitor_pass (Ok data) w)) = (live_lines ++ final_lines)%list /\
    Forall2 shows_live (games_of false events) live_lines /\
    Forall2 shows_final (games_of true events) final_lines /\
    forall event home away,
      In event events ->
      has_two_competitors event = Ok true ->
      competitors_of event = Ok (home, away) ->
      (get_halftime_score home = None \/ get_halftime_score away = None ->
       gather_event event = Ok None) /\
      (forall h a,
         get_halftime_score home = Some h -> get_halftime_score away = Some a ->
         let game := {| event := event; home_team := home; away_team := away;
                        home_halftime := h; away_halftime := a |} in
         exists state line,
           py_getitem3 event "status" "type" "state" = Ok state /\
           In line (live_lines ++ final_lines)%list /\
           if eq_str "post" state then shows_final game line
           else shows_live game line).
Proof.
  intros Hc He H.
  unfold monitor_pass. rewrite H. cbn [snd].
  unfold scoreboard_body in H.
  apply io_bind_ok in H as (d & s1 & H1 & H). apply lift_ok in H1 as [H1 ->].
  injection H1 as <-.
  apply io_bind_ok in H as (b & s1 & H1 & H). apply lift_ok in H1 as [H1 ->].
  rewrite Hc in H1. injection H1 as <-. cbn [negb] in H.
  apply io_bind_ok in H as (evs & s1 & H1 & H). apply lift_ok in H1 as [H1 ->].
  rewrite He in H1. injection H1 as <-.
  apply io_bind_ok in H as ([live completed] & s1 & H1 & H). apply lift_ok in H1 as [H1 ->].
  apply gather_games_ok in H1 as (-> & -> & G). cbn [fst snd] in H.
  destruct (show_games_ok _ _ _ _ H) as (live_lines & final_lines & E & FL & FC).
  exists live_lines, final_lines.
  split; [rewrite game_lines_app, E; cbn; apply app_nil_r|].
  split; [exact FL|]. split; [exact FC|].
  intros event home away Hin Htwo Hteams.
  rewrite List.Forall_forall in G. destruct (G _ Hin) as [r Hr].
  unfold gather_event, mbind, result_bind in *.
  rewrite Htwo, Hteams in *. cbn [negb fst snd] in *.
  split.
  - intros [N|N]; rewrite N; [reflexivity|].
    destruct (get_halftime_score home); reflexivity.
  - intros h a Hh Ha. cbv zeta.
    set (game := {| event := event; home_team := home; away_team := away;
                    home_halftime := h; away_halftime := a |}).
    rewrite Hh, Ha in Hr.
    destruct (py_getitem3 event "status" "type" "state") as [state|] eqn:Es;
      [|discriminate].
    injection Hr as <-.
    assert (Hg : In game (games_of (eq_str "post" state) events)).
    { apply (games_of_In _ _ event); [exact Hin|].
      unfold gather_event, mbind, result_bind.
      rewrite Htwo, Hteams. cbn [negb fst snd]. rewrite Hh, Ha, Es. reflexivity. }
    exists state.
    destruct (eq_str "post" state).
    + destruct (Forall2_In_l _ _ _ _ FC Hg) as (line & Hl & Hs).
      exists line. split; [reflexivity|]. split; [|exact Hs].
      apply in_or_app. right. exact Hl.
    + destruct (Forall2_In_l _ _ _ _ FL Hg) as (line & Hl & Hs).
      exists line. split; [reflexivity|]. split; [|exact Hs].
      apply in_or_app. left. exact Hl.
Qed.

End Properties.

(** ** The claims on concrete scoreboards *)

Section Examples.

#[local] Existing Instance digits_only.

Lemma analyze_performance_thresholds_witness :
  analyze_performance (VFloat 105) (VFloat 100) = Ok Hot /\
  analyze_performance (VFloat 95) (VFloat 100) = Ok Cold /\
  analyze_performance (VFloat 102) (VFloat 100) = Ok Neutral /\
  analyze_performance (VStr "110") (VFloat 0) = Ok NoData.
Proof.
  split; [|split; [|split]].
  - destruct (analyze_performance_thresholds VNone 105) as (_ & _ & _ & H).
    destruct (H 100%float eq_refl) as (_ & _ & _ & H5 & _). apply H5. reflexivity.
  - destruct (analyze_performance_thresholds VNone 95) as (_ & _ & _ & H).
    destruct (H 100%float eq_refl) as (_ & _ & _ & _ & H5). apply H5. reflexivity.
  - destruct (analyze_performance_thresholds VNone 102) as (_ & _ & _ & H).
    destruct (H 100%float eq_refl) as (_ & _ & H5 & _). apply H5; reflexivity.
  - destruct (analyze_performance_thresholds (VStr "110") 0) as (H & _).
    apply H. reflexivity.
Defined.

Lemma get_halftime_score_first_two_witness :
  get_halftime_score
    (VDict [("linescores", VList [period 28; VDict []; period 30])]) = Some 28%float /\
  get_halftime_score (VDict [("linescores", VList [period 28])]) = None.
Proof.
  split.
  - destruct (get_halftime_score_first_two
                [("linescores", VList [period 28; VDict []; period 30])]) as (H & _).
    exact (H (period 28) (VDict []) [period 30] 28%float f0 eq_refl eq_refl eq_refl).
  - destruct (get_halftime_score_first_two [("linescores", VList [period 28])])
      as (_ & _ & _ & _ & _ & _ & H).
    apply (H [period 28]); [reflexivity | simpl; lia].
Defined.

(** C2 as stated fails: an entry of [linescores] that cannot be read does not
    count 0; the first-half score is absent although two periods are
    present. *)
Lemma unreadable_period_gives_no_score :
  get_halftime_score (competitor "14" "Lakers" (VStr "30") [VNone; period 30]) = None /\
  get_halftime_score
    (competitor "14" "Lakers" (VStr "30") [VDict [("value", VStr "N/A")]; period 30])
  = None /\
  get_halftime_score (competitor "14" "Lakers" (VStr "30") [VDict []; period 30])
  = Some 30%float.
Proof. repeat split; vm_compute; reflexivity. Qed.

Lemma update_keeps_cache_on_failure_witness :
  nba_halftime_averages (state (update_nba_halftime_averages (env := offline) warm_world))
  = nba_halftime_averages (state warm_world) /\
  nba_second_half_averages (state (update_nba_halftime_averages (env := offline) warm_world))
  = nba_second_half_averages (state warm_world).
Proof.
  destruct (update_keeps_cache_on_failure (env := offline) warm_world) as [H _].
  apply H; intros rows E; discriminate E.
Defined.


Lemma second_half_is_final_minus_first_half_witness :
  exists bold line,
    snd (snd (show_completed_game (env := online) lakers_celtics_game (fresh_world, [])))
    = [FinalLine bold line] /\
    fl_home_second_half line = PrimFloat.sub 110 55 /\
    fl_away_second_half line = PrimFloat.sub 95 50 /\
    fl_home_second_perf line = Hot /\
    fl_away_second_perf line = Neutral.
Proof.
  assert (H : show_completed_game (env := online) lakers_celtics_game (fresh_world, [])
              = (Ok tt, snd (show_completed_game (env := online) lakers_celtics_game
                               (fresh_world, []))))
    by (vm_compute; reflexivity).
  destruct (second_half_is_final_minus_first_half _ _ _ H)
    as (hf & af & bold & line & home_id & away_id
        & Eh & Ea & Es & Ehs & Eas & Ih & Ia & _ & _ & Ph & Pa & _).
  exists bold, line. injection Eh as <-. injection Ea as <-.
  injection Ih as <-. injection Ia as <-.
  split; [exact Es|]. split; [exact Ehs|]. split; [exact Eas|].
  split.
  - assert (E : Ok Hot = Ok (fl_home_second_perf line)) by exact Ph.
    injection E as <-. reflexivity.
  - assert (E : Ok Neutral = Ok (fl_away_second_perf line)) by exact Pa.
    injection E as <-. reflexivity.
Defined.

Lemma get_team_stats_refreshes_when_stale_witness :
  requests (snd (get_team_stats (env := online) (VStr "14") false fresh_world)) = 2%nat /\
  requests (snd (get_team_stats (env := online) (VStr "14") false warm_world))
  = requests warm_world.
Proof.
  split.
  - destruct (get_team_stats_refreshes_when_stale (env := online) (VStr "14") false fresh_world)
      as (H & _).
    apply H. exact I.
  - destruct (get_team_stats_refreshes_when_stale (env := online) (VStr "14") false warm_world)
      as (_ & H & _).
    apply H. intros S. vm_compute in S. discriminate S.
Defined.

(** C7 as stated fails: both teams share the no-data rating, which is not
    the neutral one, and the line is not emphasised. *)
Lemma shared_no_data_is_not_emphasised :
  snd (monitor_pass (env := online) (Ok (scoreboard [knicks_heat])) fresh_world)
  = [ LiveHeader; Rule;
      LiveLine false
        {| ll_away_name := VStr "Heat"; ll_away_halftime := 49; ll_away_perf := NoData;
           ll_home_name := VStr "Knicks"; ll_home_halftime := 51; ll_home_perf := NoData;
           ll_status := VStr "Halftime" |};
      ExitHint; LastUpdated 0 ] /\
  NoData <> Neutral.
Proof. split; [vm_compute; reflexivity | discriminate]. Qed.

Lemma missing_linescores_skip_only_that_game_witness :
  exists live_lines final_lines,
    game_lines (snd (monitor_pass (env := online)
                       (Ok (scoreboard [bulls_pistons; knicks_heat; lakers_celtics]))
                       fresh_world))
    = (live_lines ++ final_lines)%list /\
    Forall2 shows_live (games_of false [bulls_pistons; knicks_heat; lakers_celtics])
      live_lines /\
    Forall2 shows_final (games_of true [bulls_pistons; knicks_heat; lakers_celtics])
      final_lines /\
    gather_event bulls_pistons = Ok None.
Proof.
  assert (H : scoreboard_body (env := online)
                (Ok (scoreboard [bulls_pistons; knicks_heat; lakers_celtics]))
                (fresh_world, [])
              = (Ok tt,
                 snd (scoreboard_body (env := online)
                        (Ok (scoreboard [bulls_pistons; knicks_heat; lakers_celtics]))
                        (fresh_world, []))))
    by (vm_compute; reflexivity).
  destruct (missing_linescores_skip_only_that_game (env := online)
              (scoreboard [bulls_pistons; knicks_heat; lakers_celtics])
              [bulls_pistons; knicks_heat; lakers_celtics] fresh_world _
              eq_refl eq_refl H)
    as (live_lines & final_lines & E & FL & FC & G).
  exists live_lines, final_lines.
  split; [exact E|]. split; [exact FL|]. split; [exact FC|].
  apply (G bulls_pistons bulls pistons); [left; reflexivity | reflexivity | reflexivity |].
  left. reflexivity.
Defined.

(** C8 as stated fails: a final score that is no number does not skip its
    game alone; the pass stops there, and the game after it, which is
    rendered when it stands alone, gets no line. (While the game is live its
    score is not read, and the game has its line.) *)
Lemma non_numeric_score_stops_the_pass :
  get_halftime_score lakers_no_score = Some 55%float /\
  get_halftime_score celtics = Some 50%float /\
  length (game_lines (snd (monitor_pass (env := online)
                             (Ok (scoreboard [lakers_celtics_live_no_score]))
                             fresh_world))) = 1%nat /\
  snd (monitor_pass (env := online)
         (Ok (scoreboard [lakers_celtics_no_score; knicks_heat_final])) fresh_world)
  = [CompletedHeader; Rule; ErrorLine ValueError; ExitHint; LastUpdated 0] /\
  game_lines (snd (monitor_pass (env := online)
                     (Ok (scoreboard [knicks_heat_final])) fresh_world))
  = [ FinalLine false
        {| fl_away_name := VStr "Heat"; fl_away_halftime := 49;
           fl_away_second_half := 0;
           fl_away_first_perf := NoData; fl_away_second_perf := NoData;
           fl_home_name := VStr "Knicks"; fl_home_halftime := 51;
           fl_home_second_half := 0;
           fl_home_first_perf := NoData; fl_home_second_perf := NoData |} ].
Proof. repeat split; vm_compute; reflexivity. Qed.

Lemma get_team_stats_total_witness :
  fst (get_team_stats (env := offline) (VStr "Supersonics") true fresh_world) = None /\
  fst (get_team_stats (env := offline) (VStr "14") true fresh_world) = None /\
  get_team_stats (env := offline) (VInt 14) false fresh_world
  = (None, refresh_if_stale (env := offline) fresh_world).
Proof.
  destruct (get_team_stats_total (env := offline) "Supersonics" true fresh_world)
    as (_ & _ & H1 & _ & H3).
  destruct (get_team_stats_total (env := offline) "14" true fresh_world)
    as (_ & _ & _ & H2 & _).
  split; [apply H1; reflexivity|].
  split; [apply (H2 "LA Lakers"); reflexivity|].
  apply (H3 (VInt 14) AttributeError). reflexivity.
Defined.

Lemma hornets_resolve_to_earlier_nickname_witness :
  resolve_team_name (VStr "Charlotte Hornets") = Ok (Some "Brooklyn").
Proof.
  destruct (hornets_resolve_to_earlier_nickname "Charlotte Hornets" eq_refl)
    as (_ & _ & H).
  apply H; reflexivity.
Defined.

(** C10 as stated fails: an identifier that contains "Hornets" and is no
    numeric code resolves to "Atlanta" when it also contains "Hawks". *)
Lemma hawks_before_nets :
  contains_str "Hornets" "Hawks Hornets" = true /\
  lookup_item "Hawks Hornets" team_id_mappings = None /\
  resolve_team_name (VStr "Hawks Hornets") = Ok (Some "Atlanta") /\
  resolve_team_name (VStr "Hawks Hornets") <> Ok (Some "Brooklyn").
Proof. repeat split; try (vm_compute; reflexivity). vm_compute. discriminate. Qed.

End Examples.

(** ** Further properties of the tracker and of the monitoring loop *)

Section Coverage.

Context {python : builtins} {env : environment}.

Lemma add_row_lookup (m : gmap string float) (cols : list string) (t : string) :
  add_row m cols !! t =
  match row_entry cols with
  | Some (name, avg_score) => if String.eqb name t then Some avg_score else m !! t
  | None => m !! t
  end.
Proof.
  unfold add_row, row_entry.
  destruct (3 <=? length cols)%nat; [|reflexivity].
  destruct (float_of_string (strip (nth 2 cols ""))) as [a|]; [|reflexivity].
  destruct (String.eqb_spec (strip (nth 1 cols "")) t) as [->|N].
  - apply lookup_insert_eq.
  - apply lookup_insert_ne. exact N.
Qed.

Lemma fold_add_row_lookup (rows : list (list string)) (m : gmap string float) (t : string) :
  fold_left add_row rows m !! t =
  match table_average t rows with
  | Some avg_score => Some avg_score
  | None => m !! t
  end.
Proof.
  revert m. induction rows as [|cols rest IH]; intros m; [reflexivity|].
  cbn [fold_left table_average]. rewrite IH.
  destruct (table_average t rest); [reflexivity|].
  rewrite add_row_lookup.
  destruct (row_entry cols) as [[name a]|]; [|reflexivity].
  destruct (String.eqb name t); reflexivity.
Qed.

(** What the two caches hold after a refresh. *)
Lemma update_caches_lookup (w : world) (team_name : string) :
  let w' := update_nba_halftime_averages w in
  nba_halftime_averages (state w') !! team_name =
    match http_get (requests w) first_half_url with
    | Table rows =>
        match table_average team_name (tail rows) with
        | Some avg_score => Some avg_score
        | None => nba_halftime_averages (state w) !! team_name
        end
    | NoTable | Failed => nba_halftime_averages (state w) !! team_name
    end /\
  nba_second_half_averages (state w') !! team_name =
    match http_get (S (requests w)) second_half_url with
    | Table rows =>
        match table_average team_name (tail rows) with
        | Some avg_score => Some avg_score
        | None => nba_second_half_averages (state w) !! team_name
        end
    | NoTable | Failed => nba_second_half_averages (state w) !! team_name
    end.
Proof.
  cbv zeta.
  unfold update_nba_halftime_averages, update_second_half, update_first_half, add_rows.
  destruct (http_get (requests w) first_half_url) as [| |rows1];
    cbn [requests state ticks];
    destruct (http_get (S (requests w)) second_half_url) as [| |rows2];
    cbn [state nba_halftime_averages nba_second_half_averages];
    rewrite ?fold_add_row_lookup; split; reflexivity.
Qed.

(** X1. After a refresh each cache holds, for a team, the average of the
    last row of its page that names the team (header row, short rows and
    rows with an unreadable average aside), and else what it held before;
    a page that fails or has no table leaves its cache as it was, whatever
    the other page does. *)
Theorem refresh_takes_last_row (w : world) (team_name : string) :
  let w' := update_nba_halftime_averages w in
  nba_halftime_averages (state w') !! team_name =
    match http_get (requests w) first_half_url with
    | Table rows =>
        match table_average team_name (tail rows) with
        | Some avg_score => Some avg_score
        | None => nba_halftime_averages (state w) !! team_name
        end
    | NoTable | Failed => nba_halftime_averages (state w) !! team_name
    end /\
  nba_second_half_averages (state w') !! team_name =
    match http_get (S (requests w)) second_half_url with
    | Table rows =>
        match table_average team_name (tail rows) with
        | Some avg_score => Some avg_score
        | None => nba_second_half_averages (state w) !! team_name
        end
    | NoTable | Failed => nba_second_half_averages (state w) !! team_name
    end.
Proof. exact (update_caches_lookup w team_name). Qed.

(** X2. A refresh never forgets a team: whoever had an average in a cache
    before still has one after, whatever the two pages hold. *)
Theorem refresh_never_forgets (w : world) (team_name : string) :
  let w' := update_nba_halftime_averages w in
  (is_Some (nba_halftime_averages (state w) !! team_name) ->
   is_Some (nba_halftime_averages (state w') !! team_name)) /\
  (is_Some (nba_second_half_averages (state w) !! team_name) ->
   is_Some (nba_second_half_averages (state w') !! team_name)).
Proof.
  cbv zeta.
  unfold update_nba_halftime_averages, update_second_half, update_first_half, add_rows.
  destruct (http_get (requests w) first_half_url) as [| |rows1];
    cbn [requests state ticks];
    destruct (http_get (S (requests w)) second_half_url) as [| |rows2];
    cbn [state nba_halftime_averages nba_second_half_averages];
    rewrite ?fold_add_row_lookup; split; intros H; try exact H;
    match goal with
    | |- is_Some (match ?o with _ => _ end) => destruct o; [eexists; reflexivity | exact H]
    end.
Qed.

Lemma averages_stale_keeps (w : world) :
  state (snd (averages_stale w)) = state w /\
  requests (snd (averages_stale w)) = requests w.
Proof.
  unfold averages_stale.
  destruct (last_averages_update (state w)); split; reflexivity.
Qed.

Lemma update_timestamp (w : world) :
  last_averages_update (state (update_nba_halftime_averages w)) =
  match http_get (requests w) first_half_url with
  | Table _ => Some (clock (ticks w))
  | NoTable | Failed => last_averages_update (state w)
  end.
Proof.
  unfold update_nba_halftime_averages, update_second_half, update_first_half.
  destruct (http_get (requests w) first_half_url);
    cbn [requests state ticks];
    destruct (http_get _ second_half_url); reflexivity.
Qed.

Lemma update_ticks (w : world) :
  ticks (update_nba_halftime_averages w) =
  match http_get (requests w) first_half_url with
  | Table _ => S (ticks w)
  | NoTable | Failed => ticks w
  end.
Proof.
  unfold update_nba_halftime_averages, update_second_half, update_first_half.
  destruct (http_get (requests w) first_half_url);
    cbn [requests state ticks];
    destruct (http_get _ second_half_url); reflexivity.
Qed.

Lemma refresh_if_stale_cases (w : world) :
  (stale w /\ refresh_if_stale w = update_nba_halftime_averages (snd (averages_stale w))) \/
  (~ stale w /\ refresh_if_stale w = snd (averages_stale w)).
Proof.
  pose proof (averages_stale_spec w) as Hs. unfold refresh_if_stale.
  destruct (averages_stale w) as [[] w1]; cbn [fst snd] in *.
  - left. split; [apply Hs; reflexivity | reflexivity].
  - right. split; [intros H; apply Hs in H; discriminate | reflexivity].
Qed.

(** X3. A refresh that got the first-half table is not repeated within
    the hour: the call that refreshed stamps the tracker with the clock's
    reading, and a following call whose clock reading is at most 3600
    seconds later makes no request and leaves the tracker as it is. *)
Theorem refresh_not_repeated_within_the_hour
  (id1 id2 : value) (sh1 sh2 : bool) (w : world) (rows : list (list string)) :
  stale w ->
  http_get (requests w) first_half_url = Table rows ->
  let w1 := snd (get_team_stats id1 sh1 w) in
  let w2 := snd (get_team_stats id2 sh2 w1) in
  (clock (ticks w1) - clock (ticks (snd (averages_stale w))) <= one_hour)%Z ->
  last_averages_update (state w1) = Some (clock (ticks (snd (averages_stale w)))) /\
  requests w1 = (requests w + 2)%nat /\
  requests w2 = requests w1 /\
  state w2 = state w1.
Proof.
  intros Hs Hp w1 w2 Hc. subst w1 w2. unfold get_team_stats in *. cbn [snd] in *.
  destruct (averages_stale_keeps w) as [Es Er].
  destruct (refresh_if_stale_cases w) as [[_ E]|[N _]]; [|contradiction].
  rewrite E in *.
  assert (T : last_averages_update (state (update_nba_halftime_averages (snd (averages_stale w))))
              = Some (clock (ticks (snd (averages_stale w))))).
  { rewrite update_timestamp, Er, Hp. reflexivity. }
  split; [exact T|]. split; [rewrite update_requests, Er; lia|].
  set (w1 := update_nba_halftime_averages (snd (averages_stale w))) in *.
  assert (F : ~ stale w1).
  { unfold stale. rewrite T. lia. }
  destruct (refresh_if_stale_cases w1) as [[S1 _]|[_ E1]]; [contradiction|].
  rewrite E1. destruct (averages_stale_keeps w1) as [Es1 Er1]. split; assumption.
Qed.

Lemma lookup_without_table (team_id : value) (second_half : bool) (w : world) :
  first_half_down ->
  last_averages_update (state w) = None ->
  let w' := snd (get_team_stats team_id second_half w) in
  last_averages_update (state w') = None /\
  requests w' = (requests w + 2)%nat /\
  nba_halftime_averages (state w') = nba_halftime_averages (state w).
Proof.
  intros Hd Hn. cbv zeta. unfold get_team_stats. cbn [snd].
  unfold refresh_if_stale, averages_stale. rewrite Hn.
  split; [|split].
  - rewrite update_timestamp.
    destruct (http_get (requests w) first_half_url) as [| |rows] eqn:E;
      [exact Hn | exact Hn | destruct (Hd _ _ E)].
  - rewrite update_requests. lia.
  - unfold update_nba_halftime_averages, update_second_half, update_first_half.
    destruct (http_get (requests w) first_half_url) as [| |rows] eqn:E;
      [| | destruct (Hd _ _ E)]; cbn [requests state];
      destruct (http_get _ second_half_url); reflexivity.
Qed.

(** X4. A refresh that does not get the first-half table is not
    remembered: while the first-half page yields no table and the tracker
    has no timestamp, every call of [get_team_stats] fetches both pages
    again, the timestamp stays absent and the first-half cache stays as it
    is. *)
Theorem failed_refresh_is_retried_at_every_lookup
  (calls : list (value * bool)) (w : world) :
  first_half_down ->
  last_averages_update (state w) = None ->
  let w' := lookups calls w in
  last_averages_update (state w') = None /\
  requests w' = (requests w + 2 * length calls)%nat /\
  nba_halftime_averages (state w') = nba_halftime_averages (state w).
Proof.
  intros Hd. revert w. induction calls as [|[team_id second_half] rest IH];
    intros w Hn; cbn [lookups length].
  - split; [exact Hn | split; [simpl; lia | reflexivity]].
  - destruct (lookup_without_table team_id second_half w Hd Hn) as (H1 & H2 & H3).
    destruct (IH _ H1) as (I1 & I2 & I3).
    split; [exact I1|]. split; [rewrite I2, H2; lia | rewrite I3; exact H3].
Qed.

(** X5. On the scores and averages the loop passes it, a float and a float
    or [None], [analyze_performance] raises nothing, and its rating is
    no-data exactly when the average is absent or zero. *)
Theorem analyze_performance_no_data_iff (x : float) (e : option float) :
  exists r,
    analyze_performance (VFloat x) (of_option e) = Ok r /\
    (r = NoData <-> e = None \/ exists f, e = Some f /\ PrimFloat.eqb f f0 = true).
Proof.
  destruct e as [f|]; cbn [of_option].
  - destruct (PrimFloat.eqb f f0) eqn:E.
    + exists NoData. split.
      * unfold analyze_performance, truthy. rewrite E. reflexivity.
      * split; [intros _; right; exists f; split; [reflexivity | exact E] | reflexivity].
    + rewrite (analyze_performance_floats x f E). eexists. split; [reflexivity|].
      split.
      * intros H. exfalso.
        destruct (PrimFloat.leb f5 (diff_pct x f)); [discriminate|].
        destruct (PrimFloat.leb (diff_pct x f) fneg5); discriminate.
      * intros [H|(g & H & G)]; [discriminate|]. injection H as <-. congruence.
  - exists NoData. split; [reflexivity|]. split; [intros _; left|]; reflexivity.
Qed.

(** X6. Only a string identifier can resolve: for a team identifier of any
    other kind (a number, [None], a list, a dict) the lookup is absent. *)
Theorem only_string_identifiers_resolve
  (team_id : value) (second_half : bool) (w : world) :
  (forall s, team_id <> VStr s) ->
  fst (get_team_stats team_id second_half w) = None.
Proof.
  intros H. unfold get_team_stats. cbn [fst].
  unfold lookup_average, resolve_team_name, mbind, result_bind.
  destruct team_id; try reflexivity. destruct (H s eq_refl).
Qed.

(** X7. [get_halftime_score] gives a score only for a record whose
    [linescores] is a list of at least two entries of which the first two
    can be read, and the score is their sum: the entries after the second
    and the other fields of the record play no part. *)
Theorem get_halftime_score_some_iff (competitor : value) (total : float) :
  get_halftime_score competitor = Some total <->
  exists d p1 p2 rest a b,
    competitor = VDict d /\
    lookup_item "linescores" d = Some (VList (p1 :: p2 :: rest)) /\
    period_value p1 = Ok a /\ period_value p2 = Ok b /\
    total = PrimFloat.add (PrimFloat.add f0 a) b.
Proof.
  split.
  - intros H. destruct competitor as [| | | | s | l | d];
      try (rewrite get_halftime_score_not_dict in H; [discriminate | intros ? ?; discriminate]).
    rewrite get_halftime_score_dict in H.
    destruct (lookup_item "linescores" d) as [[| | | | | [|p1 [|p2 rest]] |]|] eqn:E;
      try discriminate.
    destruct (period_value p1) as [a|] eqn:E1; [|discriminate].
    destruct (period_value p2) as [b|] eqn:E2; [|discriminate].
    injection H as <-. exists d, p1, p2, rest, a, b. repeat split; assumption.
  - intros (d & p1 & p2 & rest & a & b & -> & E & E1 & E2 & ->).
    rewrite get_halftime_score_dict, E, E1, E2. reflexivity.
Qed.

End Coverage.

Section CoverageFloats.

Context {python : builtins}.

Lemma f0_spec : Prim2SF f0 = S754_zero false.
Proof. vm_compute. reflexivity. Qed.

Lemma f100_spec : Prim2SF f100 = S754_finite false 7036874417766400 (-46).
Proof. vm_compute. reflexivity. Qed.

(** For a non-zero average, the percentage difference of the average from
    itself is a zero, or not a number when the average is infinite or not a
    number itself. *)
Lemma diff_pct_self (e : float) :
  PrimFloat.eqb e f0 = false ->
  Prim2SF (diff_pct e e) = S754_nan \/ exists s, Prim2SF (diff_pct e e) = S754_zero s.
Proof.
  unfold diff_pct. rewrite FloatAxioms.eqb_spec, mul_spec, div_spec, sub_spec, f0_spec, f100_spec.
  destruct (Prim2SF e) as [s|s| |s m ex]; intros H.
  - destruct s; discriminate H.
  - left. destruct s; reflexivity.
  - left. reflexivity.
  - right. unfold SF64sub, SFsub. cbv zeta. rewrite Z.sub_diag.
    exists (xorb (xorb false s) false). reflexivity.
Qed.

(** X8. A score equal to a non-zero expected average is rated neutral. *)
Theorem score_equal_to_average_is_neutral (e : float) :
  PrimFloat.eqb e f0 = false ->
  analyze_performance (VFloat e) (VFloat e) = Ok Neutral.
Proof.
  intros H. rewrite (analyze_performance_floats e e H).
  rewrite !leb_spec, f5_spec, fneg5_spec.
  destruct (diff_pct_self e H) as [->|[s ->]]; [reflexivity|].
  destruct s; reflexivity.
Qed.

End CoverageFloats.

Section CoverageTables.

Context {python : builtins} {env : environment}.

(** X9. The two tables agree: every numeric code resolves to the market of
    its nickname, and so does the nickname itself when it is given as the
    identifier, except for "Hornets", which resolves to "Brooklyn". *)
Theorem codes_and_nicknames_agree (code nickname : string) :
  lookup_item code team_id_mappings = Some nickname ->
  exists market,
    lookup_item nickname nba_team_mappings = Some market /\
    resolve_team_name (VStr code) = Ok (Some market) /\
    (nickname <> "Hornets" -> resolve_team_name (VStr nickname) = Ok (Some market)) /\
    (nickname = "Hornets" -> resolve_team_name (VStr nickname) = Ok (Some "Brooklyn")).
Proof.
  intros H. apply lookup_item_In in H.
  assert (F : Forall (fun kv =>
                exists market,
                  lookup_item (snd kv) nba_team_mappings = Some market /\
                  resolve_team_name (VStr (fst kv)) = Ok (Some market) /\
                  (snd kv <> "Hornets" ->
                   resolve_team_name (VStr (snd kv)) = Ok (Some market)) /\
                  (snd kv = "Hornets" ->
                   resolve_team_name (VStr (snd kv)) = Ok (Some "Brooklyn")))
              team_id_mappings).
  { unfold team_id_mappings.
    repeat (constructor;
            [cbn [fst snd]; eexists; split; [vm_compute; reflexivity|];
             split; [vm_compute; reflexivity|];
             split; intros N;
             first [ vm_compute; reflexivity | discriminate N | destruct (N eq_refl) ]|]).
    constructor. }
  rewrite List.Forall_forall in F. exact (F _ H).
Qed.

Lemma lower_ascii_range (c : ascii) :
  lower_ascii c = c \/
  ((97 <=? nat_of_ascii (lower_ascii c))%nat && (nat_of_ascii (lower_ascii c) <=? 122)%nat = true).
Proof.
  unfold lower_ascii.
  destruct ((65 <=? nat_of_ascii c)%nat && (nat_of_ascii c <=? 90)%nat) eqn:E;
    [right | left; reflexivity].
  apply andb_true_iff in E as [E1 E2].
  apply Nat.leb_le in E1, E2.
  rewrite nat_ascii_embedding by lia.
  apply andb_true_iff. split; apply Nat.leb_le; lia.
Qed.

Lemma lower_ascii_idempotent (c : ascii) : lower_ascii (lower_ascii c) = lower_ascii c.
Proof.
  destruct (lower_ascii_range c) as [E|H]; [rewrite !E; reflexivity|].
  unfold lower_ascii at 1.
  apply andb_true_iff in H as [H1 H2]. apply Nat.leb_le in H1, H2.
  destruct (nat_of_ascii (lower_ascii c) <=? 90)%nat eqn:E.
  - apply Nat.leb_le in E. lia.
  - rewrite andb_false_r. reflexivity.
Qed.

Lemma lower_idempotent (s : string) : lower (lower s) = lower s.
Proof.
  induction s as [|c s IH]; [reflexivity|].
  cbn [lower]. rewrite lower_ascii_idempotent, IH. reflexivity.
Qed.

Lemma lower_caseless (k : string) : caseless k = true -> lower k = k.
Proof.
  induction k as [|c k IH]; [reflexivity|].
  cbn [caseless lower]. intros H.
  apply andb_true_iff in H as [Hc Hk]. apply andb_true_iff in Hc as [Hu _].
  rewrite (IH Hk). f_equal. unfold lower_ascii.
  apply negb_true_iff in Hu. rewrite Hu. reflexivity.
Qed.

(** A string without a letter is the lowercase form of itself only. *)
Lemma lower_eq_caseless (s k : string) :
  caseless k = true -> lower s = k -> s = k.
Proof.
  revert k. induction s as [|c s IH]; intros k Hk E.
  - exact E.
  - destruct k as [|d k]; [discriminate E|].
    cbn [lower] in E. injection E as E1 E2.
    cbn [caseless] in Hk. apply andb_true_iff in Hk as [Hd Hk].
    apply andb_true_iff in Hd as [_ Hl]. apply negb_true_iff in Hl.
    rewrite (IH k Hk E2). f_equal.
    destruct (lower_ascii_range c) as [R|R]; [congruence|].
    rewrite E1 in R. congruence.
Qed.

Lemma lookup_caseless_lower (s : string) (table : list (string * string)) :
  Forall (fun kv => caseless (fst kv) = true) table ->
  lookup_item (lower s) table = lookup_item s table.
Proof.
  induction 1 as [|[k v] l Hk _ IH]; [reflexivity|].
  cbn [lookup_item fst] in *. rewrite IH.
  destruct (String.eqb_spec (lower s) k) as [E|N], (String.eqb_spec s k) as [E'|N'];
    try reflexivity.
  - destruct N'. exact (lower_eq_caseless _ _ Hk E).
  - destruct N. subst s. exact (lower_caseless _ Hk).
Qed.

(** X10. Resolution ignores the case of the identifier: an identifier and
    its lowercase form resolve alike. *)
Theorem resolution_ignores_case (s : string) :
  resolve_team_name (VStr (lower s)) = resolve_team_name (VStr s).
Proof.
  rewrite !resolve_team_name_string. unfold resolve_spec.
  rewrite lookup_caseless_lower by (repeat constructor).
  rewrite lower_idempotent. reflexivity.
Qed.

End CoverageTables.

Section CoverageLoop.

Context {python : builtins} {env : environment}.

Lemma gather_event_some (e : value) (post : bool) (game : game_info) :
  gather_event e = Ok (Some (post, game)) ->
  event game = e /\
  competitors_of e = Ok (home_team game, away_team game) /\
  get_halftime_score (home_team game) = Some (home_halftime game) /\
  get_halftime_score (away_team game) = Some (away_halftime game) /\
  exists state,
    py_getitem3 e "status" "type" "state" = Ok state /\ eq_str "post" state = post.
Proof.
  unfold gather_event, mbind, result_bind.
  destruct (has_two_competitors e) as [[]|]; cbn [negb]; try discriminate.
  destruct (competitors_of e) as [[home away]|]; [|discriminate]. cbn [fst snd].
  destruct (get_halftime_score home) as [h|] eqn:Eh; [|discriminate].
  destruct (get_halftime_score away) as [a|] eqn:Ea; [|discriminate].
  destruct (py_getitem3 e "status" "type" "state") as [state|]; [|discriminate].
  intros H. injection H as <- <-. cbn.
  repeat split; try assumption. exists state. split; reflexivity.
Qed.

Lemma games_of_listed (post : bool) (events : list value) :
  Forall (game_of_event post events) (games_of post events).
Proof.
  induction events as [|e rest IH]; [constructor|].
  assert (W : Forall (game_of_event post (e :: rest)) (games_of post rest)).
  { eapply List.Forall_impl; [|exact IH].
    intros g (Hin & H). split; [right; exact Hin | exact H]. }
  cbn [games_of].
  destruct (gather_event e) as [[[b g]|]|] eqn:E; try exact W.
  destruct (Bool.eqb b post) eqn:Eb; [|exact W].
  apply eqb_prop in Eb. subst b.
  constructor; [|exact W].
  destruct (gather_event_some _ _ _ E) as (Ee & Hc & Hh & Ha & Hs).
  unfold game_of_event. rewrite Ee.
  split; [left; reflexivity|]. repeat split; assumption.
Qed.

Lemma games_of_length (events : list value) :
  (length (games_of false events) + length (games_of true events) <= length events)%nat.
Proof.
  induction events as [|e rest IH]; [reflexivity|].
  cbn [games_of length].
  destruct (gather_event e) as [[[[] g]|]|]; cbn [Bool.eqb length]; lia.
Qed.

(** X11. Every game the gathering loop lists is one of the events, with
    the two competitors of that event and the first-half scores of both; it
    is on the completed list exactly when the state of its event is "post";
    and no event is listed twice over: the two lists together are no longer
    than the events. *)
Theorem listed_games_come_from_events
  (events : list value) (live completed : list game_info) :
  gather_games events = Ok (live, completed) ->
  Forall (game_of_event false events) live /\
  Forall (game_of_event true events) completed /\
  (length live + length completed <= length events)%nat.
Proof.
  intros H. apply gather_games_ok in H as (-> & -> & _).
  split; [apply games_of_listed|]. split; [apply games_of_listed | apply games_of_length].
Qed.

Lemma show_games_layout (live completed : list game_info) s s' :
  show_games live completed s = (Ok tt, s') ->
  exists live_lines final_lines,
    snd s' = (snd s ++ layout live completed live_lines final_lines)%list /\
    Forall2 shows_live live live_lines /\
    Forall2 shows_final completed final_lines.
Proof.
  unfold show_games, layout. intros H.
  apply io_bind_ok in H as ([] & s1 & H1 & H).
  apply io_bind_ok in H as ([] & s2 & H2 & H).
  assert (L : exists live_lines,
             snd s1 = (snd s ++ if is_nil live then []
                                else LiveHeader :: Rule :: live_lines)%list /\
             Forall2 shows_live live live_lines).
  { destruct live as [|g l]; cbn [is_nil] in *.
    - injection H1 as <-. exists []. rewrite app_nil_r. split; [reflexivity | constructor].
    - apply io_bind_ok in H1 as ([] & sa & Ha & H1).
      apply io_bind_ok in H1 as ([] & sb & Hb & H1).
      apply print_ok in Ha, Hb. subst sa sb.
      destruct (for_each_ok shows_live show_live_game show_live_game_ok _ _ _ H1)
        as (lines & E & F).
      exists lines. split; [|exact F]. rewrite E. cbn [snd fst].
      rewrite <- !app_assoc. reflexivity. }
  destruct L as (live_lines & EL & FL).
  assert (C : exists final_lines,
             snd s2 = (snd s1 ++ if is_nil completed then []
                                 else (if is_nil live then [] else [Blank]) ++
                                      CompletedHeader :: Rule :: final_lines)%list /\
             Forall2 shows_final completed final_lines).
  { destruct completed as [|g l]; cbn [is_nil] in *.
    - injection H2 as <-. exists []. rewrite app_nil_r. split; [reflexivity | constructor].
    - apply io_bind_ok in H2 as ([] & sa & Ha & H2).
      apply io_bind_ok in H2 as ([] & sb & Hb & H2).
      apply io_bind_ok in H2 as ([] & sc & Hc & H2).
      apply print_ok in Hb, Hc. subst sb sc.
      destruct (for_each_ok shows_final show_completed_game show_completed_game_ok _ _ _ H2)
        as (lines & E & F).
      exists lines. split; [|exact F]. rewrite E. cbn [snd fst].
      destruct (is_nil live).
      + injection Ha as <-. rewrite <- !app_assoc. reflexivity.
      + apply print_ok in Ha. subst sa. cbn [snd]. rewrite <- !app_assoc. reflexivity. }
  destruct C as (final_lines & EC & FC).
  exists live_lines, final_lines. split; [|split; assumption].
  destruct (is_nil live && is_nil completed).
  - apply print_ok in H. subst s'. cbn [snd]. rewrite EC, EL, <- !app_assoc. reflexivity.
  - injection H as <-. rewrite EC, EL, app_nil_r, <- !app_assoc. reflexivity.
Qed.

(** X12. What a pass that raises nothing prints: the live header, a rule
    and the live lines when there is a live game; then, when there is a
    completed game, a blank line if there was a live one, the completed
    header, a rule and the final lines; the no-games line when no game is
    listed at all; and the two closing lines. *)
Theorem pass_layout (data : value) (events : list value) (w : world) s' :
  py_contains "events" data = Ok true ->
  (e ← py_getitem data "events"; py_iter e) = Ok events ->
  scoreboard_body (Ok data) (w, []) = (Ok tt, s') ->
  exists live_lines final_lines,
    snd (monitor_pass (Ok data) w) =
      (layout (games_of false events) (games_of true events) live_lines final_lines ++
       [ExitHint; LastUpdated (clock (ticks (fst s')))])%list /\
    Forall2 shows_live (games_of false events) live_lines /\
    Forall2 shows_final (games_of true events) final_lines.
Proof.
  intros Hc He H.
  unfold monitor_pass. rewrite H. cbn [snd fst].
  unfold scoreboard_body in H.
  apply io_bind_ok in H as (d & s1 & H1 & H). apply lift_ok in H1 as [H1 ->].
  injection H1 as <-.
  apply io_bind_ok in H as (b & s1 & H1 & H). apply lift_ok in H1 as [H1 ->].
  rewrite Hc in H1. injection H1 as <-. cbn [negb] in H.
  apply io_bind_ok in H as (evs & s1 & H1 & H). apply lift_ok in H1 as [H1 ->].
  rewrite He in H1. injection H1 as <-.
  apply io_bind_ok in H as ([live completed] & s1 & H1 & H). apply lift_ok in H1 as [H1 ->].
  apply gather_games_ok in H1 as (-> & -> & _). cbn [fst snd] in H.
  destruct (show_games_layout _ _ _ _ H) as (live_lines & final_lines & E & FL & FC).
  exists live_lines, final_lines. split; [|split; assumption].
  rewrite E. reflexivity.
Qed.


End CoverageLoop.

Section CoverageInvariants.

Context {python : builtins} {env : environment}.

Lemma io_spec_bind (I : world * list output -> Prop) {A B : Type}
  (m : io A) (k : A -> io B) (Q : A -> Prop) (Q' : B -> Prop) :
  io_spec I m Q -> (forall a, Q a -> io_spec I (k a) Q') -> io_spec I (m ≫= k) Q'.
Proof.
  intros Hm Hk s r s'. unfold mbind, io_bind.
  destruct (m s) as [[a|e] s1] eqn:E; intros H Hi.
  - destruct (Hm _ _ _ E Hi) as [Hi1 Hq].
    exact (Hk a (Hq a eq_refl) _ _ _ H Hi1).
  - injection H as <- <-. destruct (Hm _ _ _ E Hi) as [Hi1 _].
    split; [exact Hi1 | intros a Ha; discriminate Ha].
Qed.

Lemma io_spec_weaken (I : world * list output -> Prop) {A : Type}
  (m : io A) (Q Q' : A -> Prop) :
  io_spec I m Q -> (forall a, Q a -> Q' a) -> io_spec I m Q'.
Proof.
  intros Hm Hq s r s' H Hi. destruct (Hm _ _ _ H Hi) as [Hi1 Hr].
  split; [exact Hi1 | intros a Ha; exact (Hq a (Hr a Ha))].
Qed.

Lemma io_spec_ret (I : world * list output -> Prop) {A : Type} (a : A) :
  io_spec I (mret a) (fun _ => True).
Proof. intros s r s' H Hi. injection H as _ <-. split; [exact Hi | intros; exact Logic.I]. Qed.

Lemma io_spec_lift (I : world * list output -> Prop) {A : Type} (r : result A) :
  io_spec I (lift r) (fun a => r = Ok a).
Proof.
  intros s r' s' H Hi. injection H as <- <-. split; [exact Hi | intros a Ha; exact Ha].
Qed.

Lemma io_spec_print (I : world * list output -> Prop) (o : output) :
  (forall s, I s -> I (fst s, (snd s ++ [o])%list)) ->
  io_spec I (print o) (fun _ => True).
Proof.
  intros Ho s r s' H Hi. injection H as _ <-.
  split; [exact (Ho s Hi) | intros; exact Logic.I].
Qed.

Lemma io_spec_team_stats (I : world * list output -> Prop) (Q : value -> Prop)
  (team : value) (second_half : bool) :
  (forall team_id s, I s ->
     I (snd (get_team_stats team_id second_half (fst s)), snd s) /\
     Q (of_option (fst (get_team_stats team_id second_half (fst s))))) ->
  io_spec I (team_stats team second_half) Q.
Proof.
  intros Hg. unfold team_stats.
  eapply io_spec_bind; [apply io_spec_lift|].
  intros team_id _ s r s' H Hi. unfold call_get_team_stats in H.
  destruct (Hg team_id s Hi) as [Hi1 Hq].
  destruct (get_team_stats team_id second_half (fst s)) as [stats w1].
  injection H as <- <-. split; [exact Hi1 | intros a Ha; injection Ha as <-; exact Hq].
Qed.

Lemma io_spec_for_each (I : world * list output -> Prop) {A : Type}
  (body : A -> io unit) (l : list A) :
  (forall x, io_spec I (body x) (fun _ => True)) ->
  io_spec I (for_each body l) (fun _ => True).
Proof.
  intros Hb. induction l as [|x l IH]; cbn [for_each].
  - apply io_spec_ret.
  - eapply io_spec_bind; [apply Hb | intros _ _; exact IH].
Qed.

(** The loop keeps an invariant that its lookups keep and that printing
    a line other than a game line keeps, when the two loop bodies keep it. *)
Lemma scoreboard_body_spec (I : world * list output -> Prop) (response : result value) :
  (forall o s, is_game_line o = false -> I s -> I (fst s, (snd s ++ [o])%list)) ->
  (forall game, io_spec I (show_live_game game) (fun _ => True)) ->
  (forall game, io_spec I (show_completed_game game) (fun _ => True)) ->
  io_spec I (scoreboard_body response) (fun _ => True).
Proof.
  intros Hp Hl Hc. unfold scoreboard_body.
  eapply io_spec_bind; [apply io_spec_lift | intros data _].
  eapply io_spec_bind; [apply io_spec_lift | intros has_events _].
  destruct (negb has_events); [apply io_spec_ret|].
  eapply io_spec_bind; [apply io_spec_lift | intros events _].
  eapply io_spec_bind; [apply io_spec_lift | intros games _].
  unfold show_games.
  eapply io_spec_bind; [|intros _ _; eapply io_spec_bind; [|intros _ _]].
  - destruct (is_nil (fst games)); [apply io_spec_ret|].
    eapply io_spec_bind;
      [apply io_spec_print; intros s; apply Hp; reflexivity | intros _ _].
    eapply io_spec_bind;
      [apply io_spec_print; intros s; apply Hp; reflexivity | intros _ _].
    apply io_spec_for_each, Hl.
  - destruct (is_nil (snd games)); [apply io_spec_ret|].
    eapply io_spec_bind; [|intros _ _].
    + destruct (is_nil (fst games));
        [apply io_spec_ret | apply io_spec_print; intros s; apply Hp; reflexivity].
    + eapply io_spec_bind;
        [apply io_spec_print; intros s; apply Hp; reflexivity | intros _ _].
      eapply io_spec_bind;
        [apply io_spec_print; intros s; apply Hp; reflexivity | intros _ _].
      apply io_spec_for_each, Hc.
  - destruct (is_nil (fst games) && is_nil (snd games));
      [apply io_spec_print; intros s; apply Hp; reflexivity | apply io_spec_ret].
Qed.

Lemma fresh_lookup (team_id : value) (second_half : bool) (w : world) :
  always_fresh w ->
  state (snd (get_team_stats team_id second_half w)) = state w /\
  requests (snd (get_team_stats team_id second_half w)) = requests w.
Proof.
  intros (last & Hl & Hc). unfold get_team_stats. cbn [snd].
  destruct (refresh_if_stale_cases w) as [[S _]|[_ E]].
  - exfalso. unfold stale in S. rewrite Hl in S. specialize (Hc (ticks w)). lia.
  - rewrite E. apply averages_stale_keeps.
Qed.

(** X14. While the timestamp is at most an hour before every reading of the
    clock, a pass over any scoreboard makes no request to the statistics
    site and leaves the caches and the timestamp as they are. *)
Theorem fresh_pass_makes_no_request (response : result value) (w : world) :
  always_fresh w ->
  state (fst (monitor_pass response w)) = state w /\
  requests (fst (monitor_pass response w)) = requests w.
Proof.
  intros Hf.
  set (I := fun s : world * list output =>
              state (fst s) = state w /\ requests (fst s) = requests w).
  assert (Hg : forall team second_half,
             io_spec I (team_stats team second_half) (fun _ => True)).
  { intros team second_half. apply io_spec_team_stats.
    intros team_id s [Hs Hr]. split; [|exact Logic.I]. unfold I. cbn [fst].
    assert (Hf' : always_fresh (fst s)).
    { destruct Hf as (last & Hl & Hc). exists last. rewrite Hs. split; assumption. }
    destruct (fresh_lookup team_id second_half (fst s) Hf') as [E1 E2].
    rewrite E1, E2. split; assumption. }
  assert (Hp : forall o s, I s -> I (fst s, (snd s ++ [o])%list))
    by (intros o s H; exact H).
  assert (B : io_spec I (scoreboard_body response) (fun _ => True)).
  { apply scoreboard_body_spec.
    - intros o s _. apply Hp.
    - intros game. unfold show_live_game.
      repeat (eapply io_spec_bind;
              [first [apply Hg | apply io_spec_lift] | intros ? _]).
      apply io_spec_print. intros s. apply Hp.
    - intros game. unfold show_completed_game. cbv zeta.
      repeat (eapply io_spec_bind;
              [first [apply Hg | apply io_spec_lift] | intros ? _]).
      apply io_spec_print. intros s. apply Hp. }
  unfold monitor_pass.
  destruct (scoreboard_body response (w, [])) as [r s] eqn:E.
  destruct (B _ _ _ E) as [[Hs Hr] _]; [split; reflexivity|].
  destruct r; cbn [fst state requests]; split; assumption.
Qed.

Lemma lookup_without_averages (team_id : value) (second_half : bool) (w : world) :
  site_down -> no_averages w ->
  no_averages (snd (get_team_stats team_id second_half w)) /\
  fst (get_team_stats team_id second_half w) = None.
Proof.
  intros Hd [H1 H2]. unfold get_team_stats. cbn [fst snd].
  assert (N : no_averages (refresh_if_stale w)).
  { destruct (averages_stale_keeps w) as [Es _].
    destruct (refresh_if_stale_cases w) as [[_ E]|[_ E]]; rewrite E.
    - unfold no_averages, update_nba_halftime_averages, update_second_half,
        update_first_half.
      destruct (http_get (requests (snd (averages_stale w))) first_half_url)
        as [| |rows] eqn:P1; [| |destruct (Hd _ _ _ P1)]; cbn [requests state];
        (destruct (http_get _ second_half_url) as [| |rows] eqn:P2;
           [| |destruct (Hd _ _ _ P2)]);
        rewrite Es; split; assumption.
    - unfold no_averages. rewrite Es. split; assumption. }
  split; [exact N|]. destruct N as [N1 N2].
  unfold lookup_average, mbind, result_bind.
  destruct (resolve_team_name team_id) as [[name|]|]; try reflexivity.
  destruct (negb (truthy (VStr name))); [reflexivity|].
  destruct second_half; cbn [catch_none]; [rewrite N2 | rewrite N1]; apply lookup_empty.
Qed.

(** X15. While the statistics site yields no table and the caches are
    empty, a pass still renders its games: every game line it prints carries
    the no-data rating for both teams, in both halves, without emphasis, and
    the caches are still empty after it. *)
Theorem pass_without_averages_rates_no_data (response : result value) (w : world) :
  site_down -> no_averages w ->
  Forall no_data_line (snd (monitor_pass response w)) /\
  no_averages (fst (monitor_pass response w)).
Proof.
  intros Hd Hn.
  set (I := fun s : world * list output =>
              no_averages (fst s) /\ Forall no_data_line (snd s)).
  assert (Hg : forall team second_half,
             io_spec I (team_stats team second_half) (fun v => v = VNone)).
  { intros team second_half. apply io_spec_team_stats.
    intros team_id s [Hs Hl].
    destruct (lookup_without_averages team_id second_half (fst s) Hd Hs) as [E1 E2].
    rewrite E2. split; [split; assumption | reflexivity]. }
  assert (Hp : forall o s, no_data_line o -> I s -> I (fst s, (snd s ++ [o])%list)).
  { intros o s Ho [Hs Hl]. split; [exact Hs|]. cbn [snd].
    apply Forall_app. split; [exact Hl | constructor; [exact Ho | constructor]]. }
  assert (B : io_spec I (scoreboard_body response) (fun _ => True)).
  { apply scoreboard_body_spec.
    - intros o s Ho. apply Hp. destruct o; try exact Logic.I; discriminate Ho.
    - intros game. unfold show_live_game.
      eapply io_spec_bind; [apply Hg | intros ? ->].
      eapply io_spec_bind; [apply Hg | intros ? ->].
      eapply io_spec_bind; [apply io_spec_lift | intros ? E1; injection E1 as <-].
      eapply io_spec_bind; [apply io_spec_lift | intros ? E2; injection E2 as <-].
      repeat (eapply io_spec_bind; [apply io_spec_lift | intros ? _]).
      apply io_spec_print. intros s. apply Hp. repeat split.
    - intros game. unfold show_completed_game. cbv zeta.
      eapply io_spec_bind; [apply io_spec_lift | intros ? _].
      eapply io_spec_bind; [apply io_spec_lift | intros ? _].
      eapply io_spec_bind; [apply Hg | intros ? ->].
      eapply io_spec_bind; [apply io_spec_lift | intros ? E1; injection E1 as <-].
      eapply io_spec_bind; [apply Hg | intros ? ->].
      eapply io_spec_bind; [apply io_spec_lift | intros ? E2; injection E2 as <-].
      eapply io_spec_bind; [apply Hg | intros ? ->].
      eapply io_spec_bind; [apply io_spec_lift | intros ? E3; injection E3 as <-].
      eapply io_spec_bind; [apply Hg | intros ? ->].
      eapply io_spec_bind; [apply io_spec_lift | intros ? E4; injection E4 as <-].
      repeat (eapply io_spec_bind; [apply io_spec_lift | intros ? _]).
      apply io_spec_print. intros s. apply Hp. repeat split. }
  unfold monitor_pass.
  destruct (scoreboard_body response (w, [])) as [r s] eqn:E.
  destruct (B _ _ _ E) as [[Hs Hl] _]; [split; [exact Hn | constructor]|].
  cbn [fst snd].
  assert (Hl' : Forall no_data_line
                  (snd (match r with
                        | Ok _ => s
                        | Raise e => (fst s, (snd s ++ [ErrorLine e])%list)
                        end))).
  { destruct r; cbn [snd]; [exact Hl|].
    apply Forall_app. split; [exact Hl | repeat constructor]. }
  split.
  - apply Forall_app. split; [exact Hl' | repeat constructor].
  - destruct r; exact Hs.
Qed.

(** X16. A new tracker holds, for each half, exactly the averages of the
    page fetched for it when it is built (for a team, that of the last row
    that names it) and nothing for a page that failed or had no table; it
    has a timestamp exactly when the first-half page had its table. *)
Theorem new_tracker_holds_the_fetched_tables (team_name : string) :
  nba_halftime_averages (state new_tracker) !! team_name =
    match http_get 0%nat first_half_url with
    | Table rows => table_average team_name (tail rows)
    | NoTable | Failed => None
    end /\
  nba_second_half_averages (state new_tracker) !! team_name =
    match http_get 1%nat second_half_url with
    | Table rows => table_average team_name (tail rows)
    | NoTable | Failed => None
    end /\
  last_averages_update (state new_tracker) =
    match http_get 0%nat first_half_url with
    | Table _ => Some (clock 0%nat)
    | NoTable | Failed => None
    end.
Proof.
  unfold new_tracker.
  split; [|split].
  - rewrite (proj1 (update_caches_lookup _ team_name)). cbn [requests state nba_halftime_averages].
    destruct (http_get 0%nat first_half_url) as [| |rows]; try apply lookup_empty.
    destruct (table_average team_name (tail rows)); [reflexivity | apply lookup_empty].
  - rewrite (proj2 (update_caches_lookup _ team_name)).
    cbn [requests state nba_second_half_averages].
    destruct (http_get 1%nat second_half_url) as [| |rows]; try apply lookup_empty.
    destruct (table_average team_name (tail rows)); [reflexivity | apply lookup_empty].
  - rewrite update_timestamp. reflexivity.
Qed.

End CoverageInvariants.

Section CoverageEvents.

Context {python : builtins} {env : environment}.

(** X17. An event record without competitions, with an empty list of
    them, or whose first competition has no competitors or fewer than two,
    adds no game and raises nothing. *)
Theorem event_without_two_competitors_adds_no_game (d : list (string * value)) :
  (lookup_item "competitions" d = None -> gather_event (VDict d) = Ok None) /\
  (lookup_item "competitions" d = Some (VList []) -> gather_event (VDict d) = Ok None) /\
  (forall c rest,
     lookup_item "competitions" d = Some (VList (VDict c :: rest)) ->
     lookup_item "competitors" c = None ->
     gather_event (VDict d) = Ok None) /\
  (forall c rest l,
     lookup_item "competitions" d = Some (VList (VDict c :: rest)) ->
     lookup_item "competitors" c = Some (VList l) ->
     (length l < 2)%nat ->
     gather_event (VDict d) = Ok None).
Proof.
  unfold gather_event, has_two_competitors, py_contains, py_getitem, mbind, result_bind.
  repeat split.
  - intros ->. reflexivity.
  - intros ->. reflexivity.
  - intros c rest -> Hc. cbn. rewrite Hc. reflexivity.
  - intros c rest l -> Hc Hl. cbn. rewrite Hc. cbn.
    destruct l as [|x [|y l]]; cbn in *; try reflexivity. lia.
Qed.



End CoverageEvents.

(** ** The further properties on concrete scoreboards *)

Section CoverageExamples.

#[local] Existing Instance digits_only.

Lemma refresh_never_forgets_witness :
  is_Some (nba_halftime_averages
             (state (update_nba_halftime_averages (env := offline) warm_world))
           !! "LA Lakers").
Proof.
  destruct (refresh_never_forgets (env := offline) warm_world "LA Lakers") as [H _].
  apply H. eexists. vm_compute. reflexivity.
Defined.

Lemma refresh_not_repeated_within_the_hour_witness :
  requests (snd (get_team_stats (env := online) (VStr "2") true
                   (snd (get_team_stats (env := online) (VStr "14") false fresh_world))))
  = 2%nat.
Proof.
  destruct (refresh_not_repeated_within_the_hour (env := online)
              (VStr "14") (VStr "2") false true fresh_world _ Logic.I eq_refl)
    as (_ & H1 & H2 & _).
  - vm_compute. discriminate.
  - rewrite H2, H1. reflexivity.
Defined.

Lemma failed_refresh_is_retried_at_every_lookup_witness :
  requests (lookups (env := offline)
              [(VStr "14", false); (VStr "2", false); (VStr "14", true)] fresh_world)
  = 6%nat.
Proof.
  destruct (failed_refresh_is_retried_at_every_lookup (env := offline)
              [(VStr "14", false); (VStr "2", false); (VStr "14", true)] fresh_world)
    as (_ & H & _).
  - intros n rows E. discriminate E.
  - reflexivity.
  - exact H.
Defined.

Lemma only_string_identifiers_resolve_witness :
  fst (get_team_stats (env := online) (VInt 14) false warm_world) = None.
Proof.
  apply (only_string_identifiers_resolve (env := online)).
  intros s E. discriminate E.
Defined.

Lemma score_equal_to_average_is_neutral_witness :
  analyze_performance (VFloat 52) (VFloat 52) = Ok Neutral.
Proof. apply score_equal_to_average_is_neutral. reflexivity. Defined.

Lemma codes_and_nicknames_agree_witness :
  exists market,
    lookup_item "Lakers" nba_team_mappings = Some market /\
    resolve_team_name (VStr "14") = Ok (Some market).
Proof.
  destruct (codes_and_nicknames_agree "14" "Lakers" eq_refl) as (market & H1 & H2 & _).
  exists market. split; assumption.
Defined.

Lemma listed_games_come_from_events_witness :
  Forall (game_of_event false three_events) (games_of false three_events) /\
  Forall (game_of_event true three_events) (games_of true three_events).
Proof.
  destruct (listed_games_come_from_events three_events
              (games_of false three_events) (games_of true three_events))
    as (H1 & H2 & _).
  - vm_compute. reflexivity.
  - split; assumption.
Defined.

Lemma pass_layout_witness :
  exists live_lines final_lines,
    snd (monitor_pass (env := online) (Ok (scoreboard three_events)) fresh_world) =
      (layout (games_of false three_events) (games_of true three_events)
         live_lines final_lines ++
       [ExitHint; LastUpdated 0])%list.
Proof.
  assert (H : scoreboard_body (env := online) (Ok (scoreboard three_events))
                (fresh_world, [])
              = (Ok tt,
                 snd (scoreboard_body (env := online) (Ok (scoreboard three_events))
                        (fresh_world, []))))
    by (vm_compute; reflexivity).
  destruct (pass_layout (env := online) (scoreboard three_events) three_events
              fresh_world _ eq_refl eq_refl H)
    as (live_lines & final_lines & E & _).
  exists live_lines, final_lines. exact E.
Defined.


Lemma fresh_pass_makes_no_request_witness :
  requests (fst (monitor_pass (env := online) (Ok (scoreboard three_events)) warm_world))
  = requests warm_world.
Proof.
  apply (fresh_pass_makes_no_request (env := online)).
  exists 0. split; [reflexivity|]. intros n. vm_compute. discriminate.
Defined.

Lemma pass_without_averages_rates_no_data_witness :
  Forall no_data_line
    (snd (monitor_pass (env := offline) (Ok (scoreboard three_events)) fresh_world)).
Proof.
  apply (pass_without_averages_rates_no_data (env := offline)).
  - intros n url rows E. discriminate E.
  - split; reflexivity.
Defined.

Lemma event_without_two_competitors_adds_no_game_witness :
  gather_event (VDict [("status", VStr "postponed")]) = Ok None /\
  gather_event
    (VDict [("competitions", VList [VDict [("competitors", VList [lakers])]])])
  = Ok None.
Proof.
  split.
  - destruct (event_without_two_competitors_adds_no_game [("status", VStr "postponed")])
      as (H & _).
    apply H. reflexivity.
  - destruct (event_without_two_competitors_adds_no_game
                [("competitions", VList [VDict [("competitors", VList [lakers])]])])
      as (_ & _ & _ & H).
    apply (H [("competitors", VList [lakers])] [] [lakers]);
      [reflexivity | reflexivity | simpl; lia].
Defined.


End CoverageExamples.
